(** * Object-detection notebook (chapter 7.5): class registry and detection renderer

  A shallow embedding of the two code cells of the notebook that carry
  logic of their own:

  - the registry cell, which reads the COCO class names and builds the
    table [COLORS] of random display colours, and
  - the rendering cell, which walks over the rows of the network output,
    keeps those whose score is above a threshold and draws a rectangle and
    a label for each on a copy of the image.

  Numbers are IEEE-754 binary floats ([spec_float]); Python exceptions are
  an error type; the notebook's global variables, the objects they refer
  to and numpy's global random generator form an explicit state that the
  cells transform.  OpenCV's rasteriser is outside the notebook: an image
  object is its pixel array as loaded together with the sequence of
  drawing calls that were applied to it. *)

From Stdlib Require Import ZArith String Ascii Strings.Byte List Bool Lia.
From Stdlib Require Import Floats.SpecFloat.
From stdpp Require Import base option list gmap strings pretty.

Open Scope Z_scope.

(** ** Python values and exceptions *)

Module Py.

Inductive exn : Type :=
| FileNotFoundError
| NameError
| AttributeError
| IndexError
| ValueError
| OverflowError.

Inductive result (A : Type) : Type :=
| Return (a : A)
| Raise (e : exn).
Arguments Return {A} a.
Arguments Raise {A} e.

(** [l[i]] on a Python list or along the first axis of a numpy array: a
    negative index counts from the end, anything outside
    [-len(l) .. len(l)-1] raises [IndexError]. *)
Definition index {A} (l : list A) (i : Z) : result A :=
  let n := Z.of_nat (length l) in
  let j := if i <? 0 then i + n else i in
  if (0 <=? j) && (j <? n) then
    match l !! Z.to_nat j with
    | Some x => Return x
    | None => Raise IndexError
    end
  else Raise IndexError.

(** [len(l)] *)
Definition len {A} (l : list A) : Z := Z.of_nat (length l).

(** [s.split('\n')]: one more piece than there are newlines in [s]. *)
Definition newline : ascii := "010"%char.

Fixpoint split_newline (s : string) : list string :=
  match s with
  | EmptyString => [EmptyString]
  | String c rest =>
      if Ascii.eqb c newline then EmptyString :: split_newline rest
      else match split_newline rest with
           | piece :: pieces => String c piece :: pieces
           | [] => [String c EmptyString]
           end
  end.

End Py.

(** ** Floating-point numbers

  The rows of the network output are float32 values, [COLORS] holds
  float64 values.  The products and sums of the rendering cell are taken
  in the format [prec]/[emax] of the numpy version at hand (binary32 or
  binary64), which the definitions below take as arguments. *)

Module Float.

Abbreviation float := spec_float.

(** [x > y] *)
Definition gt (x y : float) : bool := SFltb y x.
(** [x <= y] *)
Definition le (x y : float) : bool := SFleb x y.

(** A Python integer converted to a float. *)
Definition of_int (prec emax : Z) (n : Z) : float :=
  binary_normalize prec emax n 0 false.

Definition mul (prec emax : Z) (x y : float) : float := SFmul prec emax x y.
Definition add (prec emax : Z) (x y : float) : float := SFadd prec emax x y.
Definition sub (prec emax : Z) (x y : float) : float := SFsub prec emax x y.

(** [int(x)]: truncation towards zero; [int(nan)] raises [ValueError],
    [int(inf)] raises [OverflowError]. *)
Definition to_int (x : float) : Py.result Z :=
  match x with
  | S754_nan => Py.Raise Py.ValueError
  | S754_infinity _ => Py.Raise Py.OverflowError
  | S754_zero _ => Py.Return 0
  | S754_finite s m e => Py.Return (cond_Zopp s (Z.shiftl (Z.pos m) e))
  end.

(** binary32 and binary64 *)
Definition prec32 : Z := 24.
Definition emax32 : Z := 128.
Definition prec64 : Z := 53.
Definition emax64 : Z := 1024.

(** The float with value [m * 2^e] in the given format. *)
Definition dyadic (prec emax : Z) (m e : Z) : float :=
  binary_normalize prec emax m e false.

End Float.

Import Float.

(** ** Images and OpenCV drawing calls *)

(** One RGB pixel of a uint8 image, and the [H x W x 3] array of an image. *)
Definition pixel : Type := Byte.byte * Byte.byte * Byte.byte.
Definition pixels : Type := list (list pixel).

(** [image.shape]: the height and the width of the array. *)
Definition shape (px : pixels) : Z * Z :=
  (Py.len px, match px with [] => 0 | row :: _ => Py.len row end).

Inductive font : Type := FONT_HERSHEY_SIMPLEX.

(** The two OpenCV calls of the notebook, with the arguments they receive
    after the destination image. *)
Inductive cv2_call : Type :=
| Rectangle (pt1 pt2 : Z * Z) (color : list float) (thickness : Z)
| PutText (text : string) (org : Z * Z) (fontFace : font) (fontScale : Z)
          (color : list float) (thickness : Z).

(** An image object: the array it was created with and the drawing calls
    applied to it since, oldest first. *)
Record ndarray : Type := { base : pixels; drawn : list cv2_call }.

Definition draw (call : cv2_call) (a : ndarray) : ndarray :=
  {| base := base a; drawn := drawn a ++ [call] |}.



(** The pixel data of an image object under a rasteriser [raster] for the
    drawing calls. *)
Definition pixels_of (raster : pixels -> cv2_call -> pixels) (a : ndarray) : pixels :=
  fold_left raster (drawn a) (base a).

(** ** The notebook state *)

Abbreviation loc := positive.

(** numpy's global generator: the raw 53-bit draws still to come and the
    number of draws consumed so far. *)
Record rng : Type := { stream : nat -> Z; position : nat }.

Record globals : Type := {
  files : gmap string string;
  np_random : rng;
  class_names : list string;
  COLORS : list (list float);
  heap : gmap loc ndarray;
  image : option loc;
  image_height : Z;
  image_width : Z;
  output : list (list float);
  image_copy : option loc
}.

Definition set_np_random (r : rng) (g : globals) : globals :=
  {| files := files g; np_random := r; class_names := class_names g;
     COLORS := COLORS g; heap := heap g; image := image g;
     image_height := image_height g; image_width := image_width g;
     output := output g; image_copy := image_copy g |}.

Definition set_class_names (names : list string) (g : globals) : globals :=
  {| files := files g; np_random := np_random g; class_names := names;
     COLORS := COLORS g; heap := heap g; image := image g;
     image_height := image_height g; image_width := image_width g;
     output := output g; image_copy := image_copy g |}.

Definition set_COLORS (colors : list (list float)) (g : globals) : globals :=
  {| files := files g; np_random := np_random g; class_names := class_names g;
     COLORS := colors; heap := heap g; image := image g;
     image_height := image_height g; image_width := image_width g;
     output := output g; image_copy := image_copy g |}.

Definition set_heap (h : gmap loc ndarray) (g : globals) : globals :=
  {| files := files g; np_random := np_random g; class_names := class_names g;
     COLORS := COLORS g; heap := h; image := image g;
     image_height := image_height g; image_width := image_width g;
     output := output g; image_copy := image_copy g |}.

Definition set_image (l : option loc) (h w : Z) (g : globals) : globals :=
  {| files := files g; np_random := np_random g; class_names := class_names g;
     COLORS := COLORS g; heap := heap g; image := l;
     image_height := h; image_width := w;
     output := output g; image_copy := image_copy g |}.

Definition set_output (out : list (list float)) (g : globals) : globals :=
  {| files := files g; np_random := np_random g; class_names := class_names g;
     COLORS := COLORS g; heap := heap g; image := image g;
     image_height := image_height g; image_width := image_width g;
     output := out; image_copy := image_copy g |}.

Definition set_image_copy (l : option loc) (g : globals) : globals :=
  {| files := files g; np_random := np_random g; class_names := class_names g;
     COLORS := COLORS g; heap := heap g; image := image g;
     image_height := image_height g; image_width := image_width g;
     output := output g; image_copy := l |}.

(** ** Cells as state transformers that may raise

    A cell maps the state to the state it leaves behind and either a value
    or the exception that stopped it; what was done before an exception
    stays done. *)

Definition M (A : Type) : Type := globals -> globals * Py.result A.

Definition ret {A} (a : A) : M A := fun g => (g, Py.Return a).

Definition bind {A B} (m : M A) (k : A -> M B) : M B :=
  fun g => match m g with
           | (g', Py.Return a) => k a g'
           | (g', Py.Raise e) => (g', Py.Raise e)
           end.

Definition lift {A} (r : Py.result A) : M A := fun g => (g, r).

Definition get {A} (field : globals -> A) : M A := fun g => (g, Py.Return (field g)).

Definition modify (f : globals -> globals) : M unit := fun g => (f g, Py.Return tt).

Declare Scope cell_scope.
Delimit Scope cell_scope with cell.
Notation "x <- c1 ;; c2" := (bind c1 (fun x => c2))
  (at level 100, c1 at next level, right associativity) : cell_scope.
Notation "c1 ;; c2" := (bind c1 (fun _ => c2))
  (at level 100, right associativity) : cell_scope.
Open Scope cell_scope.

(** [for x in l: body] *)
Fixpoint for_each {A} (l : list A) (body : A -> M unit) : M unit :=
  match l with
  | [] => ret tt
  | x :: rest => body x ;; for_each rest body
  end.

Definition run {A} (m : M A) (g : globals) : globals := fst (m g).
Definition outcome {A} (m : M A) (g : globals) : Py.result A := snd (m g).

(** ** Library calls used by the cells *)

(** [open(path, 'r').read()] *)
Definition read_file (path : string) : M string :=
  fun g => match files g !! path with
           | Some content => (g, Py.Return content)
           | None => (g, Py.Raise Py.FileNotFoundError)
           end.

(** [np.random.random_sample()]: the next 53-bit draw [k] of the global
    generator, as the float64 [k / 2^53]. *)
Definition random_sample : M float :=
  fun g =>
    let r := np_random g in
    let k := stream r (position r) mod 2 ^ 53 in
    (set_np_random {| stream := stream r; position := S (position r) |} g,
     Py.Return (dyadic prec64 emax64 k (-53))).

(** One sample of [np.random.uniform(low, high)]: [low + (high - low) * u]. *)
Definition uniform (low high : float) : M float :=
  u <- random_sample ;;
  ret (add prec64 emax64 low (mul prec64 emax64 (sub prec64 emax64 high low) u)).

Fixpoint replicate_cell {A} (n : nat) (m : M A) : M (list A) :=
  match n with
  | O => ret []
  | S n' => x <- m ;; xs <- replicate_cell n' m ;; ret (x :: xs)
  end.

(** [np.random.uniform(low, high, size=(rows, cols))], filled row by row. *)
Definition uniform_array (low high : float) (rows cols : nat) : M (list (list float)) :=
  replicate_cell rows (replicate_cell cols (uniform low high)).

(** The object a name refers to; a name that refers to no object stands
    for [None]. *)
Definition deref (l : loc) : M ndarray :=
  fun g => match heap g !! l with
           | Some a => (g, Py.Return a)
           | None => (g, Py.Raise Py.AttributeError)
           end.

Definition new_ndarray (a : ndarray) : M loc :=
  fun g => let l := fresh (dom (heap g)) in
           (set_heap (<[l := a]> (heap g)) g, Py.Return l).

(** The value of a global name that holds an image; [NameError] when the
    name is not bound yet. *)
Definition name (variable : globals -> option loc) : M loc :=
  fun g => match variable g with
           | Some l => (g, Py.Return l)
           | None => (g, Py.Raise Py.NameError)
           end.

(** [src.copy()]: a new object with the contents of [src]. *)
Definition ndarray_copy (src : loc) : M loc :=
  a <- deref src ;; new_ndarray a.

(** A drawing call on the object [img]; the object is changed in place. *)
Definition cv2_draw (img : loc) (call : cv2_call) : M unit :=
  a <- deref img ;;
  modify (fun g => set_heap (<[img := draw call a]> (heap g)) g).

Definition cv2_rectangle (img : loc) (pt1 pt2 : Z * Z) (color : list float)
    (thickness : Z) : M unit :=
  cv2_draw img (Rectangle pt1 pt2 color thickness).

Definition cv2_putText (img : loc) (text : string) (org : Z * Z) (fontFace : font)
    (fontScale : Z) (color : list float) (thickness : Z) : M unit :=
  cv2_draw img (PutText text org fontFace fontScale color thickness).

(** ** Cell: class names and colours *)

Definition classes_path : string := "./data/object_detection_classes_coco.txt".

Definition cell_registry : M unit :=
  content <- read_file classes_path ;;
  modify (set_class_names (Py.split_newline content)) ;;
  names <- get class_names ;;
  colors <- uniform_array (of_int prec64 emax64 0) (of_int prec64 emax64 255)
              (length names) 3 ;;
  modify (set_COLORS colors).

(** ** Cell: the image

    [decoded] is the RGB array that [cv2.imread] and [cv2.cvtColor] produce
    from the image file. *)
Definition cell_image (decoded : pixels) : M unit :=
  l <- new_ndarray {| base := decoded; drawn := [] |} ;;
  modify (set_image (Some l) (fst (shape decoded)) (snd (shape decoded))).

(** ** Cell: rendering the detections *)

(** [num / den] rounded to the nearest integer, ties to even. *)
Definition round_half_even (num den : Z) : Z :=
  let q := num / den in
  match 2 * (num mod den) ?= den with
  | Lt => q
  | Gt => q + 1
  | Eq => if Z.even q then q else q + 1
  end.

Definition zero_pad (width : nat) (s : string) : string :=
  String.concat EmptyString (replicate (width - String.length s) "0"%string) +:+ s.

Definition fixed_digits (ndigits : nat) (n : Z) : string :=
  let scale := 10 ^ Z.of_nat ndigits in
  match ndigits with
  | O => pretty n
  | S _ => pretty (n / scale) +:+ "." +:+ zero_pad ndigits (pretty (n mod scale))
  end.

Definition sign_string (s : bool) : string := if s then "-" else EmptyString.

(** Modelled from the spec: the confidence "formatted to a fixed precision",
    part of the label that the notebook leaves blank ([text = None]).  This
    is Python's [format(x, '.<ndigits>f')]: the exact value of the float
    rounded to [ndigits] decimals, ties to even. *)
Definition format_fixed (ndigits : nat) (x : float) : string :=
  match x with
  | S754_nan => "nan"
  | S754_infinity s => sign_string s +:+ "inf"
  | S754_zero s => sign_string s +:+ fixed_digits ndigits 0
  | S754_finite s m e =>
      let scale := 10 ^ Z.of_nat ndigits in
      let n := if 0 <=? e then Z.pos m * 2 ^ e * scale
               else round_half_even (Z.pos m * scale) (2 ^ (- e)) in
      sign_string s +:+ fixed_digits ndigits n
  end.

(** Modelled from the spec: the label, blank in the notebook
    ([text = None]), has the form ["<category_name>: <confidence>"]. *)
Definition label (ndigits : nat) (class_name : string) (confidence : float) : string :=
  class_name +:+ ": " +:+ format_fixed ndigits confidence.

(** Modelled from the spec: the score of a row, blank in the notebook
    ([confidence = None]), is entry 2 of the row. *)
Definition detection_confidence (detection : list float) : Py.result float :=
  Py.index detection 2.

(** Modelled from the spec: a box coordinate, blank in the notebook
    ([box_x_ul = None] and the like), is entry [k] of the row times the
    width or the height [extent] of the image. *)
Definition box_coordinate (prec emax : Z) (detection : list float) (k extent : Z)
    : Py.result float :=
  match Py.index detection k with
  | Py.Return x => Py.Return (mul prec emax x (of_int prec emax extent))
  | Py.Raise e => Py.Raise e
  end.

(** The body of the loop.  The threshold, blank in the notebook
    ([if confidence > None]), is the argument [threshold]; the corners of
    the rectangle, blank as well ([int(None)]), are the integer parts of
    the box coordinates, as the label position two lines below has them. *)
Definition render_detection (prec emax : Z) (threshold : float) (ndigits : nat)
    (detection : list float) : M unit :=
  confidence <- lift (detection_confidence detection) ;;
  if gt confidence threshold then
    class_id <- lift (Py.index detection 1) ;;
    names <- get class_names ;;
    name_index <- lift (to_int class_id) ;;
    class_name <- lift (Py.index names (name_index - 1)) ;;
    colors <- get COLORS ;;
    color_index <- lift (to_int class_id) ;;
    color <- lift (Py.index colors color_index) ;;
    width <- get image_width ;;
    height <- get image_height ;;
    box_x_ul <- lift (box_coordinate prec emax detection 3 width) ;;
    box_y_ul <- lift (box_coordinate prec emax detection 4 height) ;;
    box_x_br <- lift (box_coordinate prec emax detection 5 width) ;;
    box_y_br <- lift (box_coordinate prec emax detection 6 height) ;;
    img <- name image_copy ;;
    pt1_x <- lift (to_int box_x_ul) ;;
    pt1_y <- lift (to_int box_y_ul) ;;
    pt2_x <- lift (to_int box_x_br) ;;
    pt2_y <- lift (to_int box_y_br) ;;
    cv2_rectangle img (pt1_x, pt1_y) (pt2_x, pt2_y) color 2 ;;
    let text := label ndigits class_name confidence in
    img' <- name image_copy ;;
    org_x <- lift (to_int (add prec emax box_x_ul (of_int prec emax 2))) ;;
    org_y <- lift (to_int (add prec emax box_y_ul (of_int prec emax 30))) ;;
    cv2_putText img' text (org_x, org_y) FONT_HERSHEY_SIMPLEX 1 color 2
  else ret tt.

Definition cell_render (prec emax : Z) (threshold : float) (ndigits : nat) : M unit :=
  img <- name image ;;
  copy <- ndarray_copy img ;;
  modify (set_image_copy (Some copy)) ;;
  detections <- get output ;;
  for_each detections (render_detection prec emax threshold ndigits).

(** The image object the rendering cell leaves in [image_copy]. *)
Definition rendered (g : globals) : option ndarray :=
  match image_copy g with
  | Some l => heap g !! l
  | None => None
  end.


(** ** The drawing calls of the loop, read off as a function

    [detection_calls] lists what the loop body draws for one row and how
    the body ends, from the registry and the image size alone;
    [render_detection_calls] below shows that this is what
    [render_detection] does to the object in [image_copy]. *)

Definition and_then {A B} (r : Py.result A) (k : A -> Py.result B) : Py.result B :=
  match r with
  | Py.Return a => k a
  | Py.Raise e => Py.Raise e
  end.

(** Name, colour, upper-left corner and rectangle of a row above the
    threshold. *)
Definition detection_box (prec emax : Z) (names : list string) (colors : list (list float))
    (width height : Z) (detection : list float)
    : Py.result (string * list float * (float * float) * cv2_call) :=
  and_then (Py.index detection 1) (fun class_id =>
  and_then (to_int class_id) (fun name_index =>
  and_then (Py.index names (name_index - 1)) (fun class_name =>
  and_then (to_int class_id) (fun color_index =>
  and_then (Py.index colors color_index) (fun color =>
  and_then (Py.index detection 3) (fun x_ul =>
  and_then (Py.index detection 4) (fun y_ul =>
  and_then (Py.index detection 5) (fun x_br =>
  and_then (Py.index detection 6) (fun y_br =>
  let box_x_ul := mul prec emax x_ul (of_int prec emax width) in
  let box_y_ul := mul prec emax y_ul (of_int prec emax height) in
  and_then (to_int box_x_ul) (fun pt1_x =>
  and_then (to_int box_y_ul) (fun pt1_y =>
  and_then (to_int (mul prec emax x_br (of_int prec emax width))) (fun pt2_x =>
  and_then (to_int (mul prec emax y_br (of_int prec emax height))) (fun pt2_y =>
  Py.Return (class_name, color, (box_x_ul, box_y_ul),
             Rectangle (pt1_x, pt1_y) (pt2_x, pt2_y) color 2)))))))))))))).

(** Position of the label for a box with the given upper-left corner. *)
Definition label_org (prec emax : Z) (box_ul : float * float) : Py.result (Z * Z) :=
  and_then (to_int (add prec emax (fst box_ul) (of_int prec emax 2))) (fun org_x =>
  and_then (to_int (add prec emax (snd box_ul) (of_int prec emax 30))) (fun org_y =>
  Py.Return (org_x, org_y))).

Definition detection_calls (prec emax : Z) (threshold : float) (ndigits : nat)
    (names : list string) (colors : list (list float)) (width height : Z)
    (detection : list float) : list cv2_call * Py.result unit :=
  match Py.index detection 2 with
  | Py.Raise e => ([], Py.Raise e)
  | Py.Return confidence =>
      if gt confidence threshold then
        match detection_box prec emax names colors width height detection with
        | Py.Raise e => ([], Py.Raise e)
        | Py.Return (class_name, color, box_ul, rect) =>
            match label_org prec emax box_ul with
            | Py.Raise e => ([rect], Py.Raise e)
            | Py.Return org =>
                ([rect; PutText (label ndigits class_name confidence) org
                          FONT_HERSHEY_SIMPLEX 1 color 2],
                 Py.Return tt)
            end
        end
      else ([], Py.Return tt)
  end.

(** The calls of the whole loop: those of each row in turn, up to the
    first row whose body raises. *)
Fixpoint loop_calls (prec emax : Z) (threshold : float) (ndigits : nat)
    (names : list string) (colors : list (list float)) (width height : Z)
    (detections : list (list float)) : list cv2_call * Py.result unit :=
  match detections with
  | [] => ([], Py.Return tt)
  | detection :: rest =>
      match detection_calls prec emax threshold ndigits names colors width height detection with
      | (calls, Py.Return _) =>
          let (calls', r) := loop_calls prec emax threshold ndigits names colors
                               width height rest in
          (calls ++ calls', r)
      | (calls, Py.Raise e) => (calls, Py.Raise e)
      end
  end.

Definition append_calls (calls : list cv2_call) (a : ndarray) : ndarray :=
  {| base := base a; drawn := drawn a ++ calls |}.

(** The state in which the object at [l], whose value was [a], has received
    [calls]. *)
Definition drawn_on (l : loc) (a : ndarray) (calls : list cv2_call) (g : globals) : globals :=
  set_heap (<[l := append_calls calls a]> (heap g)) g.




(** The state after [image_copy = image.copy()]. *)
Definition copied (l : loc) (a : ndarray) (g : globals) : globals :=
  set_image_copy (Some l) (set_heap (<[l := a]> (heap g)) g).

(** ** The two ways in which the loop body returns normally *)

Section Body.
Variables (prec emax : Z) (threshold : float) (ndigits : nat).
Variables (names : list string) (colors : list (list float)) (width height : Z).

Inductive body_returns (detection : list float) : list cv2_call -> Prop :=
| Skipped (confidence : float) :
    Py.index detection 2 = Py.Return confidence ->
    gt confidence threshold = false ->
    body_returns detection []
| Rendered (confidence class_id : float) (category : Z) (class_name : string)
    (color : list float) (x_ul y_ul x_br y_br : float)
    (pt1_x pt1_y pt2_x pt2_y org_x org_y : Z) :
    Py.index detection 2 = Py.Return confidence ->
    gt confidence threshold = true ->
    Py.index detection 1 = Py.Return class_id ->
    to_int class_id = Py.Return category ->
    Py.index names (category - 1) = Py.Return class_name ->
    Py.index colors category = Py.Return color ->
    Py.index detection 3 = Py.Return x_ul ->
    Py.index detection 4 = Py.Return y_ul ->
    Py.index detection 5 = Py.Return x_br ->
    Py.index detection 6 = Py.Return y_br ->
    to_int (mul prec emax x_ul (of_int prec emax width)) = Py.Return pt1_x ->
    to_int (mul prec emax y_ul (of_int prec emax height)) = Py.Return pt1_y ->
    to_int (mul prec emax x_br (of_int prec emax width)) = Py.Return pt2_x ->
    to_int (mul prec emax y_br (of_int prec emax height)) = Py.Return pt2_y ->
    to_int (add prec emax (mul prec emax x_ul (of_int prec emax width))
              (of_int prec emax 2)) = Py.Return org_x ->
    to_int (add prec emax (mul prec emax y_ul (of_int prec emax height))
              (of_int prec emax 30)) = Py.Return org_y ->
    body_returns detection
      [Rectangle (pt1_x, pt1_y) (pt2_x, pt2_y) color 2;
       PutText (label ndigits class_name confidence) (org_x, org_y)
         FONT_HERSHEY_SIMPLEX 1 color 2].

End Body.

(** ** A small session, for concrete runs *)

(** The float32 with value [m * 2^e]. *)
Definition f32 (m e : Z) : float := dyadic prec32 emax32 m e.

Definition black : pixel := (Byte.x00, Byte.x00, Byte.x00).

(** A 640 x 480 image. *)
Definition demo_image : pixels := replicate 480 (replicate 640 black).

Definition demo_classes : string :=
  String.concat (String Py.newline EmptyString) ["person"; "bicycle"; "car"]%string.

Definition fresh_session (classes : string) : globals :=
  {| files := {[ classes_path := classes ]};
     np_random := {| stream := fun n => 1234567891234567 * Z.of_nat (S n); position := O |};
     class_names := []; COLORS := []; heap := ∅;
     image := None; image_height := 0; image_width := 0;
     output := []; image_copy := None |}.

(** The session after the registry cell on a class file with contents
    [classes], the image cell and a forward pass that produced
    [detections]. *)
Definition session (classes : string) (detections : list (list float)) : globals :=
  set_output detections
    (run (cell_image demo_image) (run cell_registry (fresh_session classes))).

Definition demo_session (detections : list (list float)) : globals :=
  session demo_classes detections.

(** The first 61 lines of the COCO class file; lines 40 to 60 are the ones
    the notebook prints. *)
Definition coco_names : list string :=
  ["person"; "bicycle"; "car"; "motorcycle"; "airplane"; "bus"; "train"; "truck";
   "boat"; "traffic light"; "fire hydrant"; "street sign"; "stop sign";
   "parking meter"; "bench"; "bird"; "cat"; "dog"; "horse"; "sheep"; "cow";
   "elephant"; "bear"; "zebra"; "giraffe"; "hat"; "backpack"; "umbrella"; "shoe";
   "eye glasses"; "handbag"; "tie"; "suitcase"; "frisbee"; "skis"; "snowboard";
   "sports ball"; "kite"; "baseball bat"; "baseball glove";
   "skateboard"; "surfboard"; "tennis racket"; "bottle"; "plate"; "wine glass";
   "cup"; "fork"; "knife"; "spoon"; "bowl"; "banana"; "apple"; "sandwich";
   "orange"; "broccoli"; "carrot"; "hot dog"; "pizza"; "donut"; "cake"]%string.

Definition coco_classes : string :=
  String.concat (String Py.newline EmptyString) coco_names.

Definition coco_session (detections : list (list float)) : globals :=
  session coco_classes detections.

(** A row of the network output with dyadic score and box. *)
Definition demo_row (category : Z) (score x_ul y_ul x_br y_br : float) : list float :=
  [f32 0 0; f32 category 0; score; x_ul; y_ul; x_br; y_br].

(** The example row of the notebook,
    [[0, category, 0.9821959, 0.3924626, 0.60919476, 0.85021377, 0.9348804]],
    as float32 values. *)
Definition notebook_row (category : Z) : list float :=
  demo_row category (f32 16478513 (-24)) (f32 13168860 (-25)) (f32 10220592 (-24))
    (f32 14264220 (-24)) (f32 15684690 (-24)).

(** The texts written on an image object. *)
Definition drawn_labels (a : ndarray) : list string :=
  omap (fun call => match call with
                    | PutText text _ _ _ _ _ => Some text
                    | Rectangle _ _ _ _ => None
                    end) (drawn a).

(** The rectangles drawn on an image object, as pairs of corners. *)
Definition drawn_boxes (a : ndarray) : list ((Z * Z) * (Z * Z)) :=
  omap (fun call => match call with
                    | Rectangle pt1 pt2 _ _ => Some (pt1, pt2)
                    | PutText _ _ _ _ _ _ => None
                    end) (drawn a).

(** A session in which [image_copy] already refers to a copy of the image:
    the rendering cell has been run once on an empty output. *)
Definition prepared (g : globals) : globals :=
  run (cell_render prec32 emax32 (f32 1 (-1)) 2) (set_output [] g).

(** A row with the box [[0.25, 0.25, 0.75, 0.75]] and score 0.875. *)
Definition centred_row (category : Z) : list float :=
  demo_row category (f32 7 (-3)) (f32 1 (-2)) (f32 1 (-2)) (f32 3 (-2)) (f32 3 (-2)).


(** ** Colours *)

(** 255.0 as a float64. *)
Definition float_255 : float := S754_finite false 8972014882652160 (-45).

(** A colour channel lies between 0 and 255. *)
Definition color_channel (c : float) : Prop :=
  le (S754_zero false) c = true /\ le c float_255 = true.

(** The state after [n] more draws from the random generator. *)
Definition advance (n : nat) (g : globals) : globals :=
  set_np_random {| stream := stream (np_random g);
                   position := (n + position (np_random g))%nat |} g.

(** ** Notions used by the further properties *)




(** Calls that come in pairs: a rectangle of thickness 2, then a text in
    the same colour, scale 1 and thickness 2. *)
Inductive paired : list cv2_call -> Prop :=
| paired_nil : paired []
| paired_cons (pt1 pt2 org : Z * Z) (color : list float) (text : string)
    (calls : list cv2_call) :
    paired calls ->
    paired (Rectangle pt1 pt2 color 2
            :: PutText text org FONT_HERSHEY_SIMPLEX 1 color 2 :: calls).

(** The channel that [np.random.uniform(0, 255)] makes of draw number [q]
    of the generator [r]. *)
Definition channel_at (r : rng) (q : nat) : float :=
  add prec64 emax64 (of_int prec64 emax64 0)
    (mul prec64 emax64
       (sub prec64 emax64 (of_int prec64 emax64 255) (of_int prec64 emax64 0))
       (dyadic prec64 emax64 (stream r q mod 2 ^ 53) (-53))).


(** A row with score 0.875 whose category is not a number. *)
Definition nan_category_row : list float :=
  [f32 0 0; S754_nan; f32 7 (-3); f32 1 (-2); f32 1 (-2); f32 3 (-2); f32 3 (-2)].

(** A row of category 1 whose score is not a number. *)
Definition nan_score_row : list float :=
  [f32 0 0; f32 1 0; S754_nan; f32 1 (-2); f32 1 (-2); f32 3 (-2); f32 3 (-2)].


(** * Proofs *)

#[local] Arguments of_int : simpl never.
#[local] Arguments mul : simpl never.
#[local] Arguments add : simpl never.
#[local] Arguments sub : simpl never.
#[local] Arguments dyadic : simpl never.

(** ** The state *)

(** Writing back the heap that is there changes nothing. *)
Lemma set_heap_id (g : globals) : set_heap (heap g) g = g.
Proof. by destruct g. Qed.

Lemma append_calls_nil (a : ndarray) : append_calls [] a = a.
Proof. destruct a as [b d]. unfold append_calls; simpl. by rewrite app_nil_r. Qed.

Lemma append_calls_app (c1 c2 : list cv2_call) (a : ndarray) :
  append_calls c2 (append_calls c1 a) = append_calls (c1 ++ c2) a.
Proof. unfold append_calls; simpl. by rewrite app_assoc. Qed.

Lemma draw_append (call : cv2_call) (a : ndarray) : draw call a = append_calls [call] a.
Proof. reflexivity. Qed.

(** Drawing nothing on an object leaves the state as it is. *)
Lemma drawn_on_nil (l : loc) (a : ndarray) (g : globals) :
  heap g !! l = Some a -> drawn_on l a [] g = g.
Proof.
  intros Hl. unfold drawn_on. rewrite append_calls_nil, insert_id by done.
  apply set_heap_id.
Qed.

(** Two rounds of drawing on the same object are one round with both lists of
    calls. *)
Lemma drawn_on_twice (l : loc) (a : ndarray) (c1 c2 : list cv2_call) (g : globals) :
  drawn_on l (append_calls c1 a) c2 (drawn_on l a c1 g) = drawn_on l a (c1 ++ c2) g.
Proof.
  unfold drawn_on, set_heap; simpl.
  by rewrite insert_insert_eq, append_calls_app.
Qed.

Lemma drawn_on_lookup (l : loc) (a : ndarray) (calls : list cv2_call) (g : globals) :
  heap (drawn_on l a calls g) !! l = Some (append_calls calls a).
Proof. unfold drawn_on; simpl. apply lookup_insert_eq. Qed.

(** The location of a new object is not in use. *)
Lemma fresh_heap (g : globals) : heap g !! fresh (dom (heap g)) = None.
Proof. apply not_elem_of_dom, is_fresh. Qed.

Lemma advance_0 (g : globals) : advance 0 g = g.
Proof. destruct g as [? [] ? ? ? ? ? ? ? ?]. reflexivity. Qed.

Lemma advance_advance (j k : nat) (g : globals) :
  advance j (advance k g) = advance (j + k) g.
Proof. unfold advance, set_np_random; simpl. by rewrite Nat.add_assoc. Qed.

(** ** Python indexing and strings *)

(** A non-negative index is a plain list lookup. *)
Lemma index_nonneg {A} (l : list A) (i : Z) (x : A) :
  0 <= i -> Py.index l i = Py.Return x <-> l !! Z.to_nat i = Some x.
Proof.
  intros Hi. unfold Py.index.
  destruct (i <? 0) eqn:Hneg; [lia|].
  destruct (0 <=? i) eqn:Hle; [|lia]. simpl.
  destruct (i <? Z.of_nat (length l)) eqn:Hlt.
  - destruct (l !! Z.to_nat i) eqn:Hl; split; congruence.
  - split; [done|]. intros Hl%lookup_lt_Some. lia.
Qed.

(** Index -1 is the last element. *)
Lemma index_minus_one {A} (l : list A) (x : A) :
  last l = Some x -> Py.index l (-1) = Py.Return x.
Proof.
  intros Hlast. unfold Py.index. simpl.
  assert (length l <> 0%nat) as Hlen by (by destruct l).
  destruct (0 <=? -1 + Z.of_nat (length l)) eqn:Hle; [|lia].
  destruct (-1 + Z.of_nat (length l) <? Z.of_nat (length l)) eqn:Hlt; [|lia]. simpl.
  replace (Z.to_nat (-1 + Z.of_nat (length l))) with (pred (length l)) by lia.
  rewrite last_lookup in Hlast. by rewrite Hlast.
Qed.

(** Every index into an empty list raises [IndexError]. *)
Lemma index_empty {A} (i : Z) : Py.index (@nil A) i = Py.Raise Py.IndexError.
Proof.
  unfold Py.index. simpl.
  destruct (i <? 0) eqn:Hneg; [|destruct (0 <=? i); simpl];
    repeat match goal with |- context [if ?b then _ else _] => destruct b eqn:?; simpl end;
    first [reflexivity | lia].
Qed.




(** ** Order on floats *)

(** Comparing the other way round gives the opposite result. *)
Lemma SFcompare_swap (x y : float) :
  SFcompare y x = option_map CompOpp (SFcompare x y).
Proof.
  destruct x as [sx|sx| |sx mx ex], y as [sy|sy| |sy my ey]; simpl;
    repeat match goal with s : bool |- _ => destruct s end; simpl; try reflexivity;
    rewrite (Z.compare_antisym ex ey);
    change (Pos.compare_cont Eq mx my) with (Pos.compare mx my);
    change (Pos.compare_cont Eq my mx) with (Pos.compare my mx);
    rewrite (Pos.compare_antisym mx my);
    destruct (ex ?= ey), (mx ?= my)%positive; reflexivity.
Qed.


Lemma gt_false_refl (x : float) : gt x x = false.
Proof.
  unfold gt, SFltb. pose proof (SFcompare_swap x x) as H.
  destruct (SFcompare x x) as [[]|]; simpl in H; congruence.
Qed.



(** ** Rounding to float64

    Enough of the behaviour of [binary_round_aux] to bound a product with
    255: a mantissa with more than 53 digits is cut to 53 digits and
    rounded up by at most one unit in the last place. *)

(** [digits2_pos p] is the number of binary digits of [p]. *)
Lemma digits2_pos_bounds (p : positive) :
  2 ^ (Z.pos (digits2_pos p) - 1) <= Z.pos p < 2 ^ Z.pos (digits2_pos p).
Proof.
  induction p as [p IH|p IH|]; simpl digits2_pos.
  - rewrite Pos2Z.inj_succ. replace (Z.succ (Z.pos (digits2_pos p)) - 1) with (Z.succ (Z.pos (digits2_pos p) - 1)) by lia.
    rewrite !Z.pow_succ_r by lia. lia.
  - rewrite Pos2Z.inj_succ. replace (Z.succ (Z.pos (digits2_pos p)) - 1) with (Z.succ (Z.pos (digits2_pos p) - 1)) by lia.
    rewrite !Z.pow_succ_r by lia. lia.
  - simpl. lia.
Qed.

Lemma digits2_pos_unique (p : positive) (d : Z) :
  2 ^ (d - 1) <= Z.pos p < 2 ^ d -> Z.pos (digits2_pos p) = d.
Proof.
  intros [Hlo Hhi]. pose proof (digits2_pos_bounds p) as [Hlo' Hhi'].
  assert (0 < d) as Hd.
  { destruct (Z.lt_ge_cases 0 d) as [|Hd]; [done|].
    exfalso. destruct (Z.eq_dec d 0) as [->|Hne].
    - simpl in Hhi. lia.
    - rewrite Z.pow_neg_r in Hhi by lia. lia. }
  destruct (Z.lt_trichotomy (Z.pos (digits2_pos p)) d) as [Hlt|[Heq|Hgt]]; [|exact Heq|].
  - exfalso. assert (2 ^ Z.pos (digits2_pos p) <= 2 ^ (d - 1)) by (apply Z.pow_le_mono_r; lia). lia.
  - exfalso. assert (2 ^ d <= 2 ^ (Z.pos (digits2_pos p) - 1)) by (apply Z.pow_le_mono_r; lia). lia.
Qed.

Lemma digits2_pos_iter_xO (p s : positive) :
  digits2_pos (Pos.iter xO p s) = (digits2_pos p + s)%positive.
Proof.
  induction s as [|s IH] using Pos.peano_ind.
  - simpl. lia.
  - rewrite Pos.iter_succ. simpl. rewrite IH. lia.
Qed.

(** One shift to the right halves the mantissa. *)
Lemma shr_1_m (mrs : shr_record) :
  0 <= shr_m mrs -> shr_m (shr_1 mrs) = shr_m mrs / 2.
Proof.
  destruct mrs as [m r s]; simpl. intros Hm.
  destruct m as [|[p|p|]|p]; cbn [shr_m]; [reflexivity| | |reflexivity|lia].
  - apply Z.div_unique with (r := 1); lia.
  - apply Z.div_unique with (r := 0); lia.
Qed.

Lemma iter_shr_1_m (n : positive) : forall mrs : shr_record,
  0 <= shr_m mrs -> shr_m (SpecFloat.iter_pos shr_1 n mrs) = shr_m mrs / 2 ^ Z.pos n.
Proof.
  induction n as [n IH|n IH|]; intros mrs Hm; simpl SpecFloat.iter_pos.
  - assert (0 <= shr_m (shr_1 mrs)) as H1 by (rewrite shr_1_m by done; apply Z.div_pos; lia).
    assert (0 <= shr_m (SpecFloat.iter_pos shr_1 n (shr_1 mrs))) as H2
      by (rewrite IH by done; apply Z.div_pos; [done|apply Z.pow_pos_nonneg; lia]).
    rewrite IH, IH, shr_1_m by done.
    rewrite !Z.div_div by (try apply Z.pow_pos_nonneg; lia).
    f_equal. replace (Z.pos n~1) with (1 + Z.pos n + Z.pos n) by lia.
    rewrite !Z.pow_add_r by lia. lia.
  - assert (0 <= shr_m (SpecFloat.iter_pos shr_1 n mrs)) as H2
      by (rewrite IH by done; apply Z.div_pos; [done|apply Z.pow_pos_nonneg; lia]).
    rewrite IH, IH by done.
    rewrite !Z.div_div by (try apply Z.pow_pos_nonneg; lia).
    f_equal. replace (Z.pos n~0) with (Z.pos n + Z.pos n) by lia.
    rewrite !Z.pow_add_r by lia. lia.
  - rewrite shr_1_m by done. reflexivity.
Qed.

Lemma round_nearest_even_bounds (q : Z) (l : location) :
  q <= round_nearest_even q l <= q + 1.
Proof. destruct l as [|[]]; simpl; try destruct (Z.even q); lia. Qed.

(** Rounding a positive mantissa with more than 53 digits to binary64. *)
Lemma binary_round_aux_long (P n : positive) (e0 : Z) :
  Z.pos (digits2_pos P) = 53 + Z.pos n ->
  -1074 <= e0 + Z.pos n ->
  e0 + Z.pos n + 1 <= 971 ->
  exists (q : positive) (e : Z),
    binary_round_aux 53 1024 false (Z.pos P) e0 loc_Exact = S754_finite false q e
    /\ ((e = e0 + Z.pos n /\ Z.pos q <= Z.pos P / 2 ^ Z.pos n + 1)
        \/ (e = e0 + Z.pos n + 1 /\ Z.pos q = 2 ^ 52
            /\ Z.pos P / 2 ^ Z.pos n + 1 = 2 ^ 53)).
Proof.
  intros Hdigits Hmin Hmax.
  pose proof (digits2_pos_bounds P) as [Hlo Hhi]. rewrite Hdigits in Hlo, Hhi.
  replace (53 + Z.pos n - 1) with (52 + Z.pos n) in Hlo by lia.
  rewrite Z.pow_add_r in Hlo, Hhi by lia.
  assert (0 < 2 ^ Z.pos n) as Hpow by (apply Z.pow_pos_nonneg; lia).
  assert (2 ^ 52 <= Z.pos P / 2 ^ Z.pos n < 2 ^ 53) as [Hqlo Hqhi].
  { split; [apply Z.div_le_lower_bound|apply Z.div_lt_upper_bound]; lia. }
  change (2 ^ 52) with 4503599627370496 in *.
  change (2 ^ 53) with 9007199254740992 in *.
  unfold binary_round_aux, shr_fexp.
  cbn [Zdigits2]. rewrite Hdigits.
  replace (fexp 53 1024 (53 + Z.pos n + e0) - e0) with (Z.pos n)
    by (unfold fexp, emin; lia).
  cbn [shr shr_record_of_loc].
  set (mrs := SpecFloat.iter_pos shr_1 n {| shr_m := Z.pos P; shr_r := false; shr_s := false |}).
  assert (shr_m mrs = Z.pos P / 2 ^ Z.pos n) as Hm
    by (unfold mrs; rewrite iter_shr_1_m; [reflexivity|simpl; lia]).
  pose proof (round_nearest_even_bounds (shr_m mrs) (loc_of_shr_record mrs)) as Hround.
  destruct (round_nearest_even (shr_m mrs) (loc_of_shr_record mrs)) as [|q|q] eqn:Hq;
    rewrite Hm in Hround; [lia| |lia].
  cbn [Zdigits2].
  destruct (Z.eq_dec (Z.pos q) 9007199254740992) as [Hcarry|Hnocarry].
  - assert (Z.pos (digits2_pos q) = 54) as ->
      by (apply digits2_pos_unique; rewrite Hcarry; split; [reflexivity|reflexivity]).
    replace (fexp 53 1024 (54 + (e0 + Z.pos n)) - (e0 + Z.pos n)) with 1
      by (unfold fexp, emin; lia).
    assert (q = 9007199254740992%positive) as -> by (apply Pos2Z.inj; exact Hcarry).
    cbn [shr SpecFloat.iter_pos shr_1 shr_m].
    replace (e0 + Z.pos n + 1 <=? 1024 - 53) with true by (symmetry; apply Z.leb_le; lia).
    eexists _, _. split; [reflexivity|]. right. split; [reflexivity|]. split; [reflexivity|].
    lia.
  - assert (Z.pos (digits2_pos q) = 53) as ->.
    { apply digits2_pos_unique. change (2 ^ (53 - 1)) with 4503599627370496.
      change (2 ^ 53) with 9007199254740992. lia. }
    replace (fexp 53 1024 (53 + (e0 + Z.pos n)) - (e0 + Z.pos n)) with 0
      by (unfold fexp, emin; lia).
    cbn [shr shr_m].
    replace (e0 + Z.pos n <=? 1024 - 53) with true by (symmetry; apply Z.leb_le; lia).
    eexists _, _. split; [reflexivity|]. left. split; [reflexivity|lia].
Qed.

(** A 53-digit mantissa in range is kept as it is. *)
Lemma binary_round_aux_exact (m : positive) (e : Z) :
  Z.pos (digits2_pos m) = 53 ->
  -1074 <= e <= 971 ->
  binary_round_aux 53 1024 false (Z.pos m) e loc_Exact = S754_finite false m e.
Proof.
  intros Hdigits He. unfold binary_round_aux, shr_fexp.
  cbn [Zdigits2 shr_record_of_loc]. rewrite Hdigits.
  replace (fexp 53 1024 (53 + e) - e) with 0 by (unfold fexp, emin; lia).
  cbn [shr shr_m loc_of_shr_record round_nearest_even Zdigits2].
  rewrite Hdigits.
  replace (fexp 53 1024 (53 + e) - e) with 0 by (unfold fexp, emin; lia).
  cbn [shr shr_m].
  by replace (e <=? 1024 - 53) with true by (symmetry; apply Z.leb_le; lia).
Qed.

(** The float64 with value [k / 2^53], for a 53-bit [k], is zero or has a
    full mantissa and an exponent between -105 and -53. *)
Lemma sample_shape (k : Z) :
  0 <= k < 2 ^ 53 ->
  binary_normalize 53 1024 k (-53) false = S754_zero false
  \/ exists (m : positive) (e : Z),
       binary_normalize 53 1024 k (-53) false = S754_finite false m e
       /\ Z.pos (digits2_pos m) = 53 /\ -105 <= e <= -53.
Proof.
  intros [Hlo Hhi]. destruct k as [|p|p]; [by left| |lia]. right.
  cbn [binary_normalize]. unfold binary_round.
  pose proof (digits2_pos_bounds p) as [Hdlo Hdhi].
  assert (Z.pos (digits2_pos p) <= 53) as Hd.
  { destruct (Z.le_gt_cases (Z.pos (digits2_pos p)) 53) as [|Hgt]; [done|].
    assert (2 ^ 53 <= 2 ^ (Z.pos (digits2_pos p) - 1)) by (apply Z.pow_le_mono_r; lia).
    lia. }
  replace (fexp 53 1024 (Z.pos (digits2_pos p) + -53)) with (Z.pos (digits2_pos p) - 106)
    by (unfold fexp, emin; lia).
  unfold shl_align.
  destruct (Z.pos (digits2_pos p) - 106 - -53) as [|s|s] eqn:Hs; [|lia|].
  - exists p, (-53). rewrite binary_round_aux_exact by lia. repeat split; lia.
  - exists (Pos.iter xO p s), (Z.pos (digits2_pos p) - 106).
    assert (Z.pos (digits2_pos (Pos.iter xO p s)) = 53) as Hdigits
      by (rewrite digits2_pos_iter_xO; lia).
    rewrite binary_round_aux_exact by lia. repeat split; lia.
Qed.

(** Order of two positive finite floats by exponent, then mantissa. *)
Lemma SFleb_finite_pos (q m : positive) (e em : Z) :
  e < em \/ (e = em /\ Z.pos q <= Z.pos m) ->
  SFleb (S754_finite false q e) (S754_finite false m em) = true.
Proof.
  intros H. unfold SFleb, SFcompare.
  change (Pos.compare_cont Eq q m) with (Pos.compare q m).
  destruct (Z.compare_spec e em); [|done|lia].
  destruct (Pos.compare_spec q m); [done|done|lia].
Qed.

(** 255.0 times a float64 in (0, 1) with a full mantissa lies in [0, 255]. *)
Lemma mul_255_bounds (m : positive) (e : Z) :
  Z.pos (digits2_pos m) = 53 ->
  -105 <= e <= -53 ->
  SFleb (S754_zero false) (SFmul 53 1024 float_255 (S754_finite false m e)) = true
  /\ SFleb (SFmul 53 1024 float_255 (S754_finite false m e)) float_255 = true.
Proof.
  intros Hdigits He.
  pose proof (digits2_pos_bounds m) as [Hmlo Hmhi]. rewrite Hdigits in Hmlo, Hmhi.
  change (2 ^ (53 - 1)) with 4503599627370496 in Hmlo.
  change (2 ^ 53) with 9007199254740992 in Hmhi.
  unfold float_255. cbn [SFmul xorb].
  set (P := (8972014882652160 * m)%positive).
  assert (Z.pos P = 8972014882652160 * Z.pos m) as HP by (unfold P; lia).
  pose proof (digits2_pos_bounds P) as [HPlo HPhi].
  assert (Z.pos (digits2_pos P) = 53 + 52 \/ Z.pos (digits2_pos P) = 53 + 53) as Hd.
  { assert (104 < Z.pos (digits2_pos P)).
    { destruct (Z.lt_ge_cases 104 (Z.pos (digits2_pos P))) as [|Hle]; [done|].
      assert (2 ^ Z.pos (digits2_pos P) <= 2 ^ 104) by (apply Z.pow_le_mono_r; lia).
      change (2 ^ 104) with 20282409603651670423947251286016 in *. lia. }
    assert (Z.pos (digits2_pos P) < 107).
    { destruct (Z.lt_ge_cases (Z.pos (digits2_pos P)) 107) as [|Hge]; [done|].
      assert (2 ^ 106 <= 2 ^ (Z.pos (digits2_pos P) - 1)) by (apply Z.pow_le_mono_r; lia).
      change (2 ^ 106) with 81129638414606681695789005144064 in *. lia. }
    lia. }
  assert (Z.pos P / 2 ^ 53 < 8972014882652160) as Hq53.
  { apply Z.div_lt_upper_bound; [done|].
    change (2 ^ 53) with 9007199254740992. lia. }
  destruct Hd as [Hd|Hd].
  - destruct (binary_round_aux_long P 52 (-45 + e) Hd) as (q & e' & -> & Hshape); [lia|lia|].
    split; [done|]. apply SFleb_finite_pos.
    change (2 ^ 52) with 4503599627370496 in Hshape.
    destruct Hshape as [(-> & _)|(-> & -> & _)]; lia.
  - destruct (binary_round_aux_long P 53 (-45 + e) Hd) as (q & e' & -> & Hshape); [lia|lia|].
    split; [done|]. apply SFleb_finite_pos.
    change (2 ^ 53) with 9007199254740992 in Hshape, Hq53.
    destruct Hshape as [(-> & Hq)|(-> & _ & Hcarry)]; lia.
Qed.

Lemma of_int_0 : of_int prec64 emax64 0 = S754_zero false.
Proof. reflexivity. Qed.

Lemma of_int_255 : of_int prec64 emax64 255 = float_255.
Proof. vm_compute. reflexivity. Qed.

(** Adding 0.0 keeps a channel a channel. *)
Lemma add_zero_channel (c : float) :
  color_channel c -> color_channel (add prec64 emax64 (S754_zero false) c).
Proof.
  unfold color_channel, add, le.
  destruct c as [[]|[]| |s m e]; simpl; done.
Qed.

(** A sample of [np.random.uniform(0, 255)] is a colour channel. *)
Lemma uniform_channel (k : Z) :
  0 <= k < 2 ^ 53 ->
  color_channel
    (add prec64 emax64 (S754_zero false)
       (mul prec64 emax64 (sub prec64 emax64 float_255 (S754_zero false))
          (dyadic prec64 emax64 k (-53)))).
Proof.
  intros Hk. apply add_zero_channel.
  change (sub prec64 emax64 float_255 (S754_zero false)) with float_255.
  unfold dyadic, prec64, emax64.
  destruct (sample_shape k Hk) as [->|(m & e & -> & Hdigits & He)].
  - done.
  - apply mul_255_bounds; done.
Qed.

(** ** The loop body *)

(** The loop body changes nothing but the object in [image_copy], which
    receives the calls of [detection_calls]. *)
Lemma render_detection_calls (prec emax : Z) (threshold : float) (ndigits : nat)
    (detection : list float) (g : globals) (l : loc) (a : ndarray) :
  image_copy g = Some l ->
  heap g !! l = Some a ->
  render_detection prec emax threshold ndigits detection g =
    let (calls, r) := detection_calls prec emax threshold ndigits (class_names g) (COLORS g)
                        (image_width g) (image_height g) detection in
    (drawn_on l a calls g, r).
Proof.
  intros Hcopy Hl.
  unfold render_detection, detection_calls, detection_box, label_org.
  unfold detection_confidence, box_coordinate.
  unfold cv2_rectangle, cv2_putText, cv2_draw, name, deref, modify, bind, lift, get, ret.
  simpl.
  destruct (Py.index detection 2) as [confidence|e]; simpl;
    [|by rewrite drawn_on_nil].
  destruct (gt confidence threshold); [|by rewrite drawn_on_nil].
  rewrite ?Hcopy.
  repeat (match goal with
          | |- context [and_then ?r _] =>
              destruct r; simpl; rewrite ?Hcopy; [|by rewrite drawn_on_nil]
          end).
  rewrite ?Hl; simpl.
  repeat (match goal with
          | |- context [and_then ?r _] => destruct r; simpl; rewrite ?Hcopy; [|done]
          end).
  rewrite ?Hcopy, ?Hl; simpl. rewrite lookup_insert_eq.
  unfold drawn_on, set_heap; simpl.
  by rewrite insert_insert_eq, !draw_append, append_calls_app.
Qed.

(** [detection_calls] returns normally exactly in the two cases of
    [body_returns]. *)
Lemma detection_calls_returns (prec emax : Z) (threshold : float) (ndigits : nat)
    (names : list string) (colors : list (list float)) (width height : Z)
    (detection : list float) (calls : list cv2_call) :
  detection_calls prec emax threshold ndigits names colors width height detection
    = (calls, Py.Return tt)
  <-> body_returns prec emax threshold ndigits names colors width height detection calls.
Proof.
  unfold detection_calls, detection_box, label_org. split.
  - destruct (Py.index detection 2) as [confidence|] eqn:Hconf; [|done].
    destruct (gt confidence threshold) eqn:Hgt;
      [|intros [= <-]; by eapply Skipped].
    repeat (match goal with
            | |- context [and_then ?r _] =>
                let H := fresh "H" in destruct r eqn:H; simpl; [|done]
            end).
    intros [= <-]. by eapply Rendered.
  - intros [confidence Hconf Hgt | ]; [by rewrite Hconf, Hgt|].
    repeat (match goal with
            | H : _ = Py.Return _ |- _ => rewrite H; clear H; simpl
            | H : gt _ _ = true |- _ => rewrite H; clear H
            end).
    reflexivity.
Qed.


(** A row whose score is not above the threshold leaves the state untouched. *)
Lemma render_detection_below (prec emax : Z) (threshold : float) (ndigits : nat)
    (detection : list float) (confidence : float) (g : globals) :
  Py.index detection 2 = Py.Return confidence ->
  gt confidence threshold = false ->
  render_detection prec emax threshold ndigits detection g = (g, Py.Return tt).
Proof.
  intros Hconf Hgt. unfold render_detection, detection_confidence, bind, lift.
  by rewrite Hconf, Hgt.
Qed.

(** A row without a score stops the body with the state untouched. *)
Lemma render_detection_no_score (prec emax : Z) (threshold : float) (ndigits : nat)
    (detection : list float) (e : Py.exn) (g : globals) :
  Py.index detection 2 = Py.Raise e ->
  render_detection prec emax threshold ndigits detection g = (g, Py.Raise e).
Proof.
  intros Hconf. unfold render_detection, detection_confidence, bind, lift.
  by rewrite Hconf.
Qed.

(** A normal return of the loop body is one of the two cases of [body_returns]. *)
Lemma render_detection_returns (prec emax : Z) (threshold : float) (ndigits : nat)
    (detection : list float) (g : globals) (l : loc) (a : ndarray) :
  image_copy g = Some l ->
  heap g !! l = Some a ->
  outcome (render_detection prec emax threshold ndigits detection) g = Py.Return tt ->
  exists calls : list cv2_call,
    body_returns prec emax threshold ndigits (class_names g) (COLORS g)
      (image_width g) (image_height g) detection calls
    /\ run (render_detection prec emax threshold ndigits detection) g = drawn_on l a calls g.
Proof.
  intros Hcopy Hl. unfold outcome, run.
  rewrite (render_detection_calls _ _ _ _ _ _ l a) by done.
  destruct (detection_calls _ _ _ _ _ _ _ _ detection) as [calls r] eqn:Hcalls; simpl.
  intros ->. exists calls. split; [|done]. by apply detection_calls_returns.
Qed.

(** A rendered row: the lookups behind its two calls. *)
Lemma render_detection_name_and_color_aux (prec emax : Z) (threshold : float)
    (ndigits : nat) (detection : list float) (confidence : float)
    (g : globals) (l : loc) (a : ndarray) :
  image_copy g = Some l ->
  heap g !! l = Some a ->
  Py.index detection 2 = Py.Return confidence ->
  gt confidence threshold = true ->
  outcome (render_detection prec emax threshold ndigits detection) g = Py.Return tt ->
  exists (class_id : float) (category : Z) (class_name : string) (color : list float)
         (pt1 pt2 org : Z * Z),
    Py.index detection 1 = Py.Return class_id
    /\ to_int class_id = Py.Return category
    /\ Py.index (class_names g) (category - 1) = Py.Return class_name
    /\ Py.index (COLORS g) category = Py.Return color
    /\ run (render_detection prec emax threshold ndigits detection) g
       = drawn_on l a [Rectangle pt1 pt2 color 2;
                       PutText (label ndigits class_name confidence) org
                         FONT_HERSHEY_SIMPLEX 1 color 2] g.
Proof.
  intros Hcopy Hl Hconf Hgt Hret.
  destruct (render_detection_returns _ _ _ _ _ _ _ _ Hcopy Hl Hret) as (calls & Hbody & Hrun).
  inversion Hbody as [c Hc Hgt'|c class_id category class_name color x_ul y_ul x_br y_br
                        pt1_x pt1_y pt2_x pt2_y org_x org_y Hc Hgt' Hid Hcat Hname Hcolor];
    rewrite Hconf in Hc; injection Hc as <-; [congruence|].
  subst calls.
  exists class_id, category, class_name, color, (pt1_x, pt1_y), (pt2_x, pt2_y), (org_x, org_y).
  repeat split; done.
Qed.


(** ** The rendering cell *)

(** The loop changes nothing but the object in [image_copy], which receives the
    calls of [loop_calls]. *)
Lemma for_each_calls (prec emax : Z) (threshold : float) (ndigits : nat)
    (detections : list (list float)) :
  forall (g : globals) (l : loc) (a : ndarray),
  image_copy g = Some l ->
  heap g !! l = Some a ->
  for_each detections (render_detection prec emax threshold ndigits) g =
    let (calls, r) := loop_calls prec emax threshold ndigits (class_names g) (COLORS g)
                        (image_width g) (image_height g) detections in
    (drawn_on l a calls g, r).
Proof.
  induction detections as [|d rest IH]; intros g l a Hcopy Hl.
  - simpl. unfold ret. by rewrite drawn_on_nil.
  - cbn [for_each loop_calls]. unfold bind at 1.
    rewrite (render_detection_calls _ _ _ _ _ _ l a) by done.
    destruct (detection_calls _ _ _ _ _ _ _ _ d) as [calls [[]|e]]; [|done].
    rewrite (IH _ l (append_calls calls a)); [|done|apply drawn_on_lookup].
    simpl.
    destruct (loop_calls _ _ _ _ _ _ _ _ rest) as [calls' r].
    by rewrite drawn_on_twice.
Qed.

(** The whole cell, when [image] refers to the object [a]: a fresh object gets
    the contents of [a] and then the calls of the loop. *)
Lemma cell_render_calls (prec emax : Z) (threshold : float) (ndigits : nat)
    (g : globals) (li : loc) (a : ndarray) :
  image g = Some li ->
  heap g !! li = Some a ->
  cell_render prec emax threshold ndigits g =
    let l := fresh (dom (heap g)) in
    let (calls, r) := loop_calls prec emax threshold ndigits (class_names g) (COLORS g)
                        (image_width g) (image_height g) (output g) in
    (drawn_on l a calls (copied l a g), r).
Proof.
  intros Himg Hli. unfold cell_render, ndarray_copy, name, bind, get, modify, deref; simpl.
  rewrite Himg, Hli. unfold new_ndarray at 1.
  rewrite (for_each_calls _ _ _ _ _ _ (fresh (dom (heap g))) a);
    [done|done|apply lookup_insert_eq].
Qed.

(** Without an image object the cell stops at [image.copy()] and leaves the
    state as it was. *)
Lemma cell_render_no_image (prec emax : Z) (threshold : float) (ndigits : nat)
    (g : globals) :
  (forall li, image g = Some li -> heap g !! li = None) ->
  run (cell_render prec emax threshold ndigits) g = g.
Proof.
  intros Hno. unfold run, cell_render, ndarray_copy, name, bind, get, deref; simpl.
  destruct (image g) as [li|] eqn:Himg; simpl; [|done].
  by rewrite (Hno li).
Qed.

(** What the cell leaves behind when [image] refers to the object [a]. *)
Lemma cell_render_run (prec emax : Z) (threshold : float) (ndigits : nat)
    (g : globals) (li : loc) (a : ndarray) :
  image g = Some li ->
  heap g !! li = Some a ->
  let l := fresh (dom (heap g)) in
  let calls := fst (loop_calls prec emax threshold ndigits (class_names g) (COLORS g)
                      (image_width g) (image_height g) (output g)) in
  run (cell_render prec emax threshold ndigits) g = drawn_on l a calls (copied l a g)
  /\ outcome (cell_render prec emax threshold ndigits) g
     = snd (loop_calls prec emax threshold ndigits (class_names g) (COLORS g)
              (image_width g) (image_height g) (output g))
  /\ rendered (run (cell_render prec emax threshold ndigits) g) = Some (append_calls calls a).
Proof.
  intros Himg Hli l calls. unfold run, outcome.
  rewrite (cell_render_calls _ _ _ _ _ li a) by done. fold l. subst calls.
  destruct (loop_calls _ _ _ _ _ _ _ _ (output g)) as [calls r]; simpl.
  repeat split. unfold rendered; simpl. apply lookup_insert_eq.
Qed.

(** The cell either stops at [image.copy()] with the state untouched, or
    changes the heap and [image_copy] and nothing else. *)
Lemma cell_render_frame (prec emax : Z) (threshold : float) (ndigits : nat) (g : globals) :
  let g' := run (cell_render prec emax threshold ndigits) g in
  files g' = files g /\ np_random g' = np_random g
  /\ class_names g' = class_names g /\ COLORS g' = COLORS g
  /\ image g' = image g /\ image_height g' = image_height g
  /\ image_width g' = image_width g /\ output g' = output g.
Proof.
  destruct (image g) as [li|] eqn:Himg.
  - destruct (heap g !! li) as [a|] eqn:Hli.
    + destruct (cell_render_run prec emax threshold ndigits g li a Himg Hli) as (-> & _).
      by repeat split.
    + simpl. rewrite cell_render_no_image; [by repeat split|].
      intros li' ?. by replace li' with li by congruence.
  - simpl. rewrite cell_render_no_image; [by repeat split|]. intros; congruence.
Qed.

(** No object that exists before the cell runs is changed by it. *)
Lemma cell_render_heap (prec emax : Z) (threshold : float) (ndigits : nat)
    (g : globals) (l0 : loc) (a0 : ndarray) :
  heap g !! l0 = Some a0 ->
  heap (run (cell_render prec emax threshold ndigits) g) !! l0 = Some a0.
Proof.
  intros Hl0.
  destruct (image g) as [li|] eqn:Himg.
  - destruct (heap g !! li) as [a|] eqn:Hli.
    + destruct (cell_render_run prec emax threshold ndigits g li a Himg Hli) as (-> & _).
      unfold drawn_on, copied; simpl.
      assert (fresh (dom (heap g)) <> l0) as Hne.
      { intros <-. pose proof (fresh_heap g). congruence. }
      by rewrite !lookup_insert_ne.
    + rewrite cell_render_no_image; [done|].
      intros li' ?. by replace li' with li by congruence.
  - rewrite cell_render_no_image; [done|]. intros; congruence.
Qed.




(** ** The registry cell *)

Lemma uniform_run (g : globals) :
  exists c : float,
    uniform (of_int prec64 emax64 0) (of_int prec64 emax64 255) g
      = (advance 1 g, Py.Return c)
    /\ color_channel c.
Proof.
  rewrite of_int_0, of_int_255. unfold uniform, bind, random_sample, ret; simpl.
  eexists. split; [reflexivity|].
  apply uniform_channel. apply Z.mod_pos_bound. done.
Qed.

(** Repeating a draw that always returns and only advances the random
    generator. *)
Lemma replicate_cell_advance {A} (m : M A) (P : A -> Prop) (k : nat) :
  (forall g, exists x, m g = (advance k g, Py.Return x) /\ P x) ->
  forall (n : nat) (g : globals),
  exists xs : list A,
    replicate_cell n m g = (advance (n * k) g, Py.Return xs)
    /\ length xs = n /\ Forall P xs.
Proof.
  intros Hm. induction n as [|n IH]; intros g; simpl.
  - exists []. unfold ret. by rewrite advance_0.
  - unfold bind at 1. destruct (Hm g) as (x & -> & Hx).
    unfold bind at 1. destruct (IH (advance k g)) as (xs & -> & Hlen & Hxs).
    exists (x :: xs). unfold ret. rewrite advance_advance, (Nat.add_comm (n * k)).
    simpl. by rewrite Hlen; repeat constructor.
Qed.

Lemma uniform_array_run (rows : nat) (g : globals) :
  exists colors : list (list float),
    uniform_array (of_int prec64 emax64 0) (of_int prec64 emax64 255) rows 3 g
      = (advance (rows * 3) g, Py.Return colors)
    /\ length colors = rows
    /\ Forall (fun color => length color = 3%nat /\ Forall color_channel color) colors.
Proof.
  unfold uniform_array.
  apply (replicate_cell_advance _
           (fun color => length color = 3%nat /\ Forall color_channel color) 3).
  intros g'. destruct (replicate_cell_advance _ color_channel 1 uniform_run 3 g')
    as (color & Hrun & Hlen & Hcolor).
  by exists color.
Qed.

(** The registry cell on an existing class file. *)
Lemma cell_registry_run (g : globals) (content : string) :
  files g !! classes_path = Some content ->
  exists colors : list (list float),
    cell_registry g
      = (set_COLORS colors
           (advance (length (Py.split_newline content) * 3)
              (set_class_names (Py.split_newline content) g)),
         Py.Return tt)
    /\ length colors = length (Py.split_newline content)
    /\ Forall (fun color => length color = 3%nat /\ Forall color_channel color) colors.
Proof.
  intros Hfile. unfold cell_registry, bind, read_file, modify, get. rewrite Hfile. simpl.
  destruct (uniform_array_run (length (Py.split_newline content))
              (set_class_names (Py.split_newline content) g))
    as (colors & -> & Hlen & Hcolors).
  by exists colors.
Qed.

(** [split] never returns an empty list, so a registry that was read from
    a file has a last name. *)
Lemma split_newline_not_nil (s : string) : Py.split_newline s <> [].
Proof.
  destruct s as [|c rest]; simpl; [done|].
  destruct (Ascii.eqb c Py.newline); [done|].
  by destruct (Py.split_newline rest).
Qed.

Lemma registry_has_last_name (g : globals) (content : string) :
  files g !! classes_path = Some content ->
  exists last_name : string, last (class_names (run cell_registry g)) = Some last_name.
Proof.
  intros Hfile. unfold run.
  destruct (cell_registry_run g _ Hfile) as (colors & -> & _); simpl.
  pose proof (split_newline_not_nil content) as Hne.
  destruct (last (Py.split_newline content)) as [x|] eqn:Hlast; [by exists x|].
  by apply last_None in Hlast.
Qed.

(** ** Concrete runs *)

Example index_last : Py.index ["a"; "b"; "c"]%string (-1) = Py.Return "c"%string.
Proof. reflexivity. Qed.

Example index_past_the_end :
  Py.index ["a"; "b"; "c"]%string 3 = Py.Raise Py.IndexError.
Proof. reflexivity. Qed.

Example split_trailing_newline :
  Py.split_newline (String.concat (String Py.newline EmptyString) ["a"%string; EmptyString])
  = ["a"%string; EmptyString].
Proof. reflexivity. Qed.

Example to_int_truncates : to_int (S754_finite true 7 (-1)) = Py.Return (-3).
Proof. reflexivity. Qed.

Example format_notebook_score : format_fixed 2 (f32 16478513 (-24)) = "0.98"%string.
Proof. vm_compute. reflexivity. Qed.

Example format_tie_to_even : format_fixed 0 (f32 5 (-1)) = "2"%string.
Proof. vm_compute. reflexivity. Qed.

(** The notebook's example row with category 53, on the 640 x 480 image:
    one rectangle and one label. *)
Example notebook_row_rendered :
  option_map (fun a => (drawn_boxes a, drawn_labels a))
    (rendered (run (cell_render prec32 emax32 (f32 1 (-1)) 2)
                 (coco_session [notebook_row 53])))
  = Some ([((251, 292), (544, 448))], ["apple: 0.98"%string]).
Proof. vm_compute. reflexivity. Qed.

(** ** C1: the threshold test is strict *)



(** ** C2: name and colour of a rendered row *)




(** ** C3: the number of boxes and the threshold *)




(** ** C4: the input image is not altered *)

(** C4.  The rendering cell never alters an image object that exists when it
    starts, so the pixel data of the input image is the same before and
    after, under any rasteriser; [image] still refers to it; and all
    drawing goes to a distinct object, created by the cell as a copy of the
    input before the first call. *)
Theorem cell_render_keeps_input (prec emax : Z) (threshold : float) (ndigits : nat)
    (g : globals) (li : loc) (a : ndarray) :
  image g = Some li ->
  heap g !! li = Some a ->
  let g' := run (cell_render prec emax threshold ndigits) g in
  image g' = Some li
  /\ heap g' !! li = Some a
  /\ (forall raster, pixels_of raster <$> heap g' !! li = Some (pixels_of raster a))
  /\ (forall l0 a0, heap g !! l0 = Some a0 -> heap g' !! l0 = Some a0)
  /\ exists (l : loc) (calls : list cv2_call),
       image_copy g' = Some l /\ l <> li /\ heap g !! l = None
       /\ heap (copied l a g) !! l = Some a
       /\ g' = drawn_on l a calls (copied l a g)
       /\ heap g' !! l = Some (append_calls calls a).
Proof.
  intros Himg Hli g'.
  pose proof (cell_render_heap prec emax threshold ndigits g) as Hheap. fold g' in Hheap.
  destruct (cell_render_frame prec emax threshold ndigits g) as (_ & _ & _ & _ & Himg' & _).
  fold g' in Himg'.
  split; [congruence|]. split; [by apply Hheap|].
  split; [intros raster; by rewrite (Hheap li a)|]. split; [done|].
  destruct (cell_render_run prec emax threshold ndigits g li a Himg Hli) as (Hrun & _ & _).
  fold g' in Hrun.
  eexists _, _. split; [by rewrite Hrun|].
  split; [intros <-; pose proof (fresh_heap g); congruence|].
  split; [apply fresh_heap|]. split; [apply lookup_insert_eq|]. split; [exact Hrun|].
  rewrite Hrun. apply drawn_on_lookup.
Qed.

(** After rendering the notebook's row, the image of the session is the
    array it was loaded as, with nothing drawn on it. *)
Lemma cell_render_keeps_input_witness :
  heap (run (cell_render prec32 emax32 (f32 1 (-1)) 2) (coco_session [notebook_row 53]))
    !! 1%positive
  = Some {| base := demo_image; drawn := [] |}.
Proof.
  apply (cell_render_keeps_input prec32 emax32 (f32 1 (-1)) 2
           (coco_session [notebook_row 53]) 1%positive); reflexivity.
Defined.

(** ** C5: from normalised to pixel coordinates *)

(** C5.  For a row above the threshold that the loop body renders, the
    corners of the rectangle are the integer parts of entries 3 and 5 times
    the image width and of entries 4 and 6 times the image height.  On the
    640 x 480 image the box [[0.25, 0.25, 0.75, 0.75]] is drawn from
    (160, 120) to (480, 360), in float32 as in float64 arithmetic. *)
Theorem render_detection_box_corners :
  (forall (prec emax : Z) (threshold : float) (ndigits : nat) (detection : list float)
          (confidence : float) (g : globals) (l : loc) (a : ndarray),
     image_copy g = Some l ->
     heap g !! l = Some a ->
     Py.index detection 2 = Py.Return confidence ->
     gt confidence threshold = true ->
     outcome (render_detection prec emax threshold ndigits detection) g = Py.Return tt ->
     exists (x_ul y_ul x_br y_br : float) (pt1_x pt1_y pt2_x pt2_y : Z)
            (color : list float) (text : string) (org : Z * Z),
       Py.index detection 3 = Py.Return x_ul
       /\ Py.index detection 4 = Py.Return y_ul
       /\ Py.index detection 5 = Py.Return x_br
       /\ Py.index detection 6 = Py.Return y_br
       /\ to_int (mul prec emax x_ul (of_int prec emax (image_width g))) = Py.Return pt1_x
       /\ to_int (mul prec emax y_ul (of_int prec emax (image_height g))) = Py.Return pt1_y
       /\ to_int (mul prec emax x_br (of_int prec emax (image_width g))) = Py.Return pt2_x
       /\ to_int (mul prec emax y_br (of_int prec emax (image_height g))) = Py.Return pt2_y
       /\ run (render_detection prec emax threshold ndigits detection) g
          = drawn_on l a [Rectangle (pt1_x, pt1_y) (pt2_x, pt2_y) color 2;
                          PutText text org FONT_HERSHEY_SIMPLEX 1 color 2] g)
  /\ (image_width (demo_session [centred_row 1]) = 640
      /\ image_height (demo_session [centred_row 1]) = 480
      /\ option_map drawn_boxes
           (rendered (run (cell_render prec32 emax32 (f32 1 (-1)) 2)
                        (demo_session [centred_row 1])))
         = Some [((160, 120), (480, 360))]
      /\ option_map drawn_boxes
           (rendered (run (cell_render prec64 emax64 (f32 1 (-1)) 2)
                        (demo_session [centred_row 1])))
         = Some [((160, 120), (480, 360))]).
Proof.
  split.
  - intros prec emax threshold ndigits detection confidence g l a Hcopy Hl Hconf Hgt Hret.
    destruct (render_detection_returns _ _ _ _ _ _ _ _ Hcopy Hl Hret)
      as (calls & Hbody & Hrun).
    inversion Hbody as [c Hc Hgt'|c class_id category class_name color x_ul y_ul x_br y_br
                          pt1_x pt1_y pt2_x pt2_y org_x org_y Hc Hgt'];
      rewrite Hconf in Hc; injection Hc as <-; [congruence|].
    subst calls.
    exists x_ul, y_ul, x_br, y_br, pt1_x, pt1_y, pt2_x, pt2_y, color,
      (label ndigits class_name confidence), (org_x, org_y).
    repeat split; done.
  - repeat split; vm_compute; reflexivity.
Qed.

(** The general part at the box [[0.25, 0.25, 0.75, 0.75]] of the example. *)
Lemma render_detection_box_corners_witness :
  exists (color : list float) (text : string) (org : Z * Z),
    run (render_detection prec32 emax32 (f32 1 (-1)) 2 (centred_row 1))
      (prepared (demo_session []))
    = drawn_on 2%positive {| base := demo_image; drawn := [] |}
        [Rectangle (160, 120) (480, 360) color 2;
         PutText text org FONT_HERSHEY_SIMPLEX 1 color 2]
        (prepared (demo_session [])).
Proof.
  destruct (proj1 render_detection_box_corners prec32 emax32 (f32 1 (-1)) 2%nat (centred_row 1)
              (f32 7 (-3)) (prepared (demo_session [])) 2%positive
              {| base := demo_image; drawn := [] |})
    as (x_ul & y_ul & x_br & y_br & pt1_x & pt1_y & pt2_x & pt2_y & color & text & org
        & Hx1 & Hy1 & Hx2 & Hy2 & Hp1x & Hp1y & Hp2x & Hp2y & Hrun);
    [reflexivity | reflexivity | reflexivity | reflexivity | reflexivity |].
  exists color, text, org.
  vm_compute in Hx1, Hy1, Hx2, Hy2.
  injection Hx1 as <-. injection Hy1 as <-. injection Hx2 as <-. injection Hy2 as <-.
  vm_compute in Hp1x, Hp1y, Hp2x, Hp2y.
  injection Hp1x as <-. injection Hp1y as <-. injection Hp2x as <-. injection Hp2y as <-.
  exact Hrun.
Defined.

(** ** C6: the rendering is a function of its inputs *)

(** C6.  Two runs of the rendering cell on the same inputs (the contents
    of the image, the rows of the output, the threshold, the precision of
    the label, the names and the colours) end the same way and show
    identical images, whatever else differs between the two sessions
    (other objects, the allocation of objects, the state of the random
    generator); the same holds when the cell is run a second time in the
    session the first run left.  No run touches the random generator. *)
Theorem cell_render_deterministic (prec emax : Z) (threshold : float) (ndigits : nat)
    (g1 g2 : globals) (li1 li2 : loc) (a : ndarray) :
  image g1 = Some li1 -> heap g1 !! li1 = Some a ->
  image g2 = Some li2 -> heap g2 !! li2 = Some a ->
  class_names g1 = class_names g2 ->
  COLORS g1 = COLORS g2 ->
  image_width g1 = image_width g2 ->
  image_height g1 = image_height g2 ->
  output g1 = output g2 ->
  let render := cell_render prec emax threshold ndigits in
  outcome render g1 = outcome render g2
  /\ rendered (run render g1) = rendered (run render g2)
  /\ (forall raster, pixels_of raster <$> rendered (run render g1)
                     = pixels_of raster <$> rendered (run render g2))
  /\ outcome render (run render g1) = outcome render g1
  /\ rendered (run render (run render g1)) = rendered (run render g1)
  /\ np_random (run render g1) = np_random g1
  /\ np_random (run render g2) = np_random g2.
Proof.
  intros Himg1 Hli1 Himg2 Hli2 Hnames Hcolors Hwidth Hheight Houtput render.
  destruct (cell_render_run prec emax threshold ndigits g1 li1 a Himg1 Hli1)
    as (_ & Hout1 & Hrendered1).
  destruct (cell_render_run prec emax threshold ndigits g2 li2 a Himg2 Hli2)
    as (_ & Hout2 & Hrendered2).
  fold render in Hout1, Hout2, Hrendered1, Hrendered2.
  destruct (cell_render_frame prec emax threshold ndigits g1)
    as (_ & Hrng1 & Hnames1 & Hcolors1 & Himg1' & Hheight1 & Hwidth1 & Houtput1).
  destruct (cell_render_frame prec emax threshold ndigits g2) as (_ & Hrng2 & _).
  fold render in Hrng1, Hnames1, Hcolors1, Himg1', Hheight1, Hwidth1, Houtput1, Hrng2.
  assert (image (run render g1) = Some li1) as Himg3 by congruence.
  assert (heap (run render g1) !! li1 = Some a) as Hli3 by (by apply cell_render_heap).
  destruct (cell_render_run prec emax threshold ndigits (run render g1) li1 a Himg3 Hli3)
    as (_ & Hout3 & Hrendered3).
  fold render in Hout3, Hrendered3.
  rewrite Hnames1, Hcolors1, Hwidth1, Hheight1, Houtput1 in Hout3, Hrendered3.
  rewrite <- Hnames, <- Hcolors, <- Hwidth, <- Hheight, <- Houtput in Hout2, Hrendered2.
  repeat split; congruence.
Qed.

(** Two runs in a row on the session with the notebook's row. *)
Lemma cell_render_deterministic_witness :
  rendered (run (cell_render prec32 emax32 (f32 1 (-1)) 2)
              (run (cell_render prec32 emax32 (f32 1 (-1)) 2)
                 (coco_session [notebook_row 53])))
  = rendered (run (cell_render prec32 emax32 (f32 1 (-1)) 2)
                (coco_session [notebook_row 53])).
Proof.
  apply (cell_render_deterministic prec32 emax32 (f32 1 (-1)) 2
           (coco_session [notebook_row 53]) (coco_session [notebook_row 53])
           1%positive 1%positive {| base := demo_image; drawn := [] |});
    reflexivity.
Defined.

(** ** C7: nothing above the threshold *)



(** ** C8: an empty class file *)

(** C8, as the code has it.  From an empty class file the registry cell
    returns without an exception and leaves a registry of size one: the
    only name is the empty string, and it has one colour. *)
Theorem registry_of_empty_file (g : globals) :
  files g !! classes_path = Some EmptyString ->
  outcome cell_registry g = Py.Return tt
  /\ class_names (run cell_registry g) = [EmptyString]
  /\ Py.len (class_names (run cell_registry g)) = 1
  /\ Py.len (COLORS (run cell_registry g)) = 1.
Proof.
  intros Hfile. unfold outcome, run, Py.len.
  destruct (cell_registry_run g _ Hfile) as (colors & -> & Hlen & _); simpl in *.
  by rewrite Hlen.
Qed.

(** The session whose class file is empty. *)
Lemma registry_of_empty_file_witness :
  class_names (run cell_registry (fresh_session EmptyString)) = [EmptyString].
Proof.
  apply (registry_of_empty_file (fresh_session EmptyString)). reflexivity.
Defined.

(** C8 as stated fails: the registry read from an empty file does not
    have size zero. *)
Lemma empty_file_registry_is_not_empty :
  outcome cell_registry (fresh_session EmptyString) = Py.Return tt
  /\ Py.len (class_names (run cell_registry (fresh_session EmptyString))) <> 0.
Proof. split; [reflexivity|]. vm_compute. discriminate. Qed.

(** ** C9: the colour table *)

(** C9.  After the registry cell has read the class file, [COLORS] has one
    row per name, every row has three channels and every channel lies
    between 0 and 255; the table took three draws per name from the
    random generator; and the rendering cell changes neither the table nor
    the state of the generator. *)
Theorem registry_colors (g : globals) (content : string) :
  files g !! classes_path = Some content ->
  let g' := run cell_registry g in
  length (COLORS g') = length (class_names g')
  /\ Forall (fun color => length color = 3%nat /\ Forall color_channel color) (COLORS g')
  /\ position (np_random g') = (length (class_names g') * 3 + position (np_random g))%nat
  /\ forall (prec emax : Z) (threshold : float) (ndigits : nat),
       COLORS (run (cell_render prec emax threshold ndigits) g') = COLORS g'
       /\ np_random (run (cell_render prec emax threshold ndigits) g') = np_random g'.
Proof.
  intros Hfile g'.
  destruct (cell_registry_run g _ Hfile) as (colors & Hrun & Hlen & Hcolors).
  assert (g' = set_COLORS colors
                 (advance (length (Py.split_newline content) * 3)
                    (set_class_names (Py.split_newline content) g))) as Hg'
    by (unfold g', run; by rewrite Hrun).
  split; [by rewrite Hg'|]. split; [by rewrite Hg'|]. split; [by rewrite Hg'|].
  intros prec emax threshold ndigits.
  destruct (cell_render_frame prec emax threshold ndigits g') as (_ & Hrng & _ & Hcol & _).
  done.
Qed.

(** The table of the session on the COCO class file. *)
Lemma registry_colors_witness :
  length (COLORS (run cell_registry (fresh_session coco_classes)))
  = length (class_names (run cell_registry (fresh_session coco_classes))).
Proof.
  apply (registry_colors (fresh_session coco_classes) coco_classes). reflexivity.
Defined.

(** ** C10: category 0 *)

(** C10.  The name lookup has no bounds check.  For a row above the
    threshold whose category is 0 the index is -1, which on a list with a
    last element returns that element and does not raise; when the loop
    body renders the row, the label carries the last name of the
    registry. *)
Theorem category_zero_renders_last_name (prec emax : Z) (threshold : float)
    (ndigits : nat) (detection : list float) (confidence class_id : float)
    (last_name : string) (g : globals) (l : loc) (a : ndarray) :
  image_copy g = Some l ->
  heap g !! l = Some a ->
  Py.index detection 2 = Py.Return confidence ->
  gt confidence threshold = true ->
  Py.index detection 1 = Py.Return class_id ->
  to_int class_id = Py.Return 0 ->
  last (class_names g) = Some last_name ->
  Py.index (class_names g) (0 - 1) = Py.Return last_name
  /\ (outcome (render_detection prec emax threshold ndigits detection) g = Py.Return tt ->
      exists (color : list float) (pt1 pt2 org : Z * Z),
        run (render_detection prec emax threshold ndigits detection) g
        = drawn_on l a [Rectangle pt1 pt2 color 2;
                        PutText (label ndigits last_name confidence) org
                          FONT_HERSHEY_SIMPLEX 1 color 2] g).
Proof.
  intros Hcopy Hl Hconf Hgt Hid Hzero Hlast.
  assert (Py.index (class_names g) (0 - 1) = Py.Return last_name) as Hname
    by (by apply index_minus_one).
  split; [done|]. intros Hret.
  destruct (render_detection_name_and_color_aux _ _ _ _ _ _ _ _ _ Hcopy Hl Hconf Hgt Hret)
    as (class_id' & category & class_name & color & pt1 & pt2 & org
        & Hid' & Hcat & Hname' & _ & Hrun).
  rewrite Hid in Hid'. injection Hid' as <-.
  rewrite Hzero in Hcat. injection Hcat as <-.
  rewrite Hname in Hname'. injection Hname' as <-.
  by exists color, pt1, pt2, org.
Qed.

(** On the COCO registry, category 0 is labelled with its last line. *)
Lemma category_zero_renders_last_name_witness :
  last (class_names (prepared (coco_session []))) = Some "cake"%string
  /\ outcome (render_detection prec32 emax32 (f32 1 (-1)) 2 (notebook_row 0))
       (prepared (coco_session [])) = Py.Return tt
  /\ exists (color : list float) (pt1 pt2 org : Z * Z),
       run (render_detection prec32 emax32 (f32 1 (-1)) 2 (notebook_row 0))
         (prepared (coco_session []))
       = drawn_on 2%positive {| base := demo_image; drawn := [] |}
           [Rectangle pt1 pt2 color 2;
            PutText (label 2 "cake" (f32 16478513 (-24))) org FONT_HERSHEY_SIMPLEX 1 color 2]
           (prepared (coco_session [])).
Proof.
  split; [reflexivity|]. split; [reflexivity|].
  apply (category_zero_renders_last_name prec32 emax32 (f32 1 (-1)) 2 (notebook_row 0)
           (f32 16478513 (-24)) (f32 0 0) "cake" (prepared (coco_session [])) 2%positive
           {| base := demo_image; drawn := [] |}); reflexivity.
Defined.

(** * Further properties of the two cells *)

(** ** Splitting the class file into names *)











(** ** Which indices and conversions raise *)

Lemma index_raises {A} (l : list A) (i : Z) (e : Py.exn) :
  Py.index l i = Py.Raise e -> e = Py.IndexError /\ (i < - Py.len l \/ Py.len l <= i).
Proof.
  unfold Py.index, Py.len.
  destruct (i <? 0) eqn:Hneg;
    (destruct (0 <=? _) eqn:Hlo; simpl;
     [destruct (_ <? Z.of_nat (length l)) eqn:Hhi; simpl|]);
    try (intros [= <-]; split; [done|lia]).
  - destruct (l !! Z.to_nat (i + Z.of_nat (length l))) eqn:Hl; [done|].
    apply lookup_ge_None in Hl. lia.
  - destruct (l !! Z.to_nat i) eqn:Hl; [done|].
    apply lookup_ge_None in Hl. lia.
Qed.

Lemma index_negative {A} (l : list A) (i : Z) (x : A) :
  i < 0 ->
  Py.index l i = Py.Return x
  <-> 0 <= i + Py.len l /\ l !! Z.to_nat (i + Py.len l) = Some x.
Proof.
  intros Hi. unfold Py.index, Py.len.
  destruct (i <? 0) eqn:Hneg; [|lia].
  destruct (0 <=? i + Z.of_nat (length l)) eqn:Hlo; simpl.
  - destruct (i + Z.of_nat (length l) <? Z.of_nat (length l)) eqn:Hhi; [|lia].
    destruct (l !! Z.to_nat (i + Z.of_nat (length l))) eqn:Hl; split;
      try done; try (intros [= <-]; split; [lia|done]); intros [_ [= <-]]; done.
  - split; [done|]. lia.
Qed.

Lemma index_returns {A} (l : list A) (i : Z) :
  - Py.len l <= i < Py.len l -> exists x, Py.index l i = Py.Return x.
Proof.
  intros Hi. destruct (Py.index l i) as [x|e] eqn:Hindex; [by exists x|].
  apply index_raises in Hindex. lia.
Qed.


(** ** The calls of one row and of a list of rows *)


Lemma loop_calls_app (prec emax : Z) (threshold : float) (ndigits : nat)
    (names : list string) (colors : list (list float)) (width height : Z)
    (rows1 rows2 : list (list float)) :
  loop_calls prec emax threshold ndigits names colors width height (rows1 ++ rows2)
  = match loop_calls prec emax threshold ndigits names colors width height rows1 with
    | (calls1, Py.Return _) =>
        let (calls2, r) := loop_calls prec emax threshold ndigits names colors
                             width height rows2 in
        (calls1 ++ calls2, r)
    | (calls1, Py.Raise e) => (calls1, Py.Raise e)
    end.
Proof.
  induction rows1 as [|d rows1 IH]; simpl.
  - by destruct (loop_calls _ _ _ _ _ _ _ _ rows2).
  - destruct (detection_calls _ _ _ _ _ _ _ _ d) as [calls [[]|e]]; [|done].
    rewrite IH.
    destruct (loop_calls _ _ _ _ _ _ _ _ rows1) as [calls1 [[]|e]]; [|done].
    destruct (loop_calls _ _ _ _ _ _ _ _ rows2) as [calls2 r].
    by rewrite app_assoc.
Qed.

Lemma paired_app (calls1 calls2 : list cv2_call) :
  paired calls1 -> paired calls2 -> paired (calls1 ++ calls2).
Proof. induction 1; simpl; [done|]. intros. constructor. auto. Qed.


(** ** The registry cell: failure, frame and layout of the table *)



Lemma uniform_channel_at (g : globals) :
  uniform (of_int prec64 emax64 0) (of_int prec64 emax64 255) g
  = (advance 1 g, Py.Return (channel_at (np_random g) (position (np_random g)))).
Proof. reflexivity. Qed.

(** Repeating a draw whose value is a function of the generator. *)
Lemma replicate_cell_map {A} (m : M A) (F : rng -> A) (k : nat) :
  (forall g, m g = (advance k g, Py.Return (F (np_random g)))) ->
  forall (n : nat) (g : globals),
  replicate_cell n m g
  = (advance (n * k) g,
     Py.Return (map (fun i => F (np_random (advance (i * k) g))) (seq 0 n))).
Proof.
  intros Hm. induction n as [|n IH]; intros g.
  - simpl. unfold ret. by rewrite advance_0.
  - cbn [replicate_cell]. unfold bind at 1. rewrite Hm.
    unfold bind at 1. rewrite IH. unfold ret.
    rewrite advance_advance, (Nat.add_comm (n * k)). cbn [seq map].
    rewrite advance_0. do 3 f_equal.
    rewrite <- seq_shift, map_map.
    apply map_ext. intros i. rewrite advance_advance. do 3 f_equal. simpl. lia.
Qed.

(** X5.  Row [i] of [COLORS] is made of the draws number [p + 3i],
    [p + 3i + 1] and [p + 3i + 2] of the random generator, where [p] draws
    had been consumed before the registry cell ran: the table is filled
    row by row, and the colour of a category depends on the state of the
    generator and on the category alone, not on the names in the file. *)
Theorem registry_colors_layout (g : globals) (content : string) (i : nat) :
  files g !! classes_path = Some content ->
  (i < length (Py.split_newline content))%nat ->
  COLORS (run cell_registry g) !! i
  = Some [channel_at (np_random g) (position (np_random g) + 3 * i);
          channel_at (np_random g) (position (np_random g) + 3 * i + 1);
          channel_at (np_random g) (position (np_random g) + 3 * i + 2)].
Proof.
  intros Hfile Hi.
  unfold run, cell_registry, bind, read_file, modify, get. rewrite Hfile. simpl.
  unfold uniform_array.
  rewrite (replicate_cell_map _
             (fun r => [channel_at r (position r); channel_at r (position r + 1);
                        channel_at r (position r + 2)]) 3).
  - simpl. rewrite list_lookup_fmap, lookup_seq_lt by done. simpl.
    unfold channel_at; simpl.
    by rewrite (Nat.mul_comm i 3), (Nat.add_comm (3 * i)).
  - intros g'.
    rewrite (replicate_cell_map _ (fun r => channel_at r (position r)) 1 uniform_channel_at).
    simpl. unfold channel_at; simpl.
    by rewrite !Nat.add_1_r, (Nat.add_comm _ 2).
Qed.

Lemma registry_colors_layout_witness :
  COLORS (run cell_registry (fresh_session demo_classes)) !! 2%nat
  = Some [channel_at (np_random (fresh_session demo_classes)) 6;
          channel_at (np_random (fresh_session demo_classes)) 7;
          channel_at (np_random (fresh_session demo_classes)) 8].
Proof.
  apply (registry_colors_layout (fresh_session demo_classes) demo_classes 2).
  - reflexivity.
  - vm_compute. lia.
Defined.

(** ** Categories that the lookups accept *)

(** X6.  With as many colours as names, say [n], a row above the threshold
    gets past the two lookups exactly for the categories from [1 - n] to
    [n - 1]: for these both lookups return, for every other category the
    body raises [IndexError] and leaves the state as it was. *)
Theorem category_range (prec emax : Z) (threshold : float) (ndigits : nat)
    (detection : list float) (confidence class_id : float) (category : Z)
    (g : globals) :
  Py.index detection 2 = Py.Return confidence ->
  gt confidence threshold = true ->
  Py.index detection 1 = Py.Return class_id ->
  to_int class_id = Py.Return category ->
  length (COLORS g) = length (class_names g) ->
  (1 - Py.len (class_names g) <= category <= Py.len (class_names g) - 1 ->
   exists class_name color,
     Py.index (class_names g) (category - 1) = Py.Return class_name
     /\ Py.index (COLORS g) category = Py.Return color)
  /\ (category < 1 - Py.len (class_names g) \/ Py.len (class_names g) - 1 < category ->
      render_detection prec emax threshold ndigits detection g
      = (g, Py.Raise Py.IndexError)).
Proof.
  intros Hconf Hgt Hid Hcat Hlen.
  assert (Py.len (COLORS g) = Py.len (class_names g)) as Hlen'
    by (unfold Py.len; by rewrite Hlen).
  split.
  - intros Hin.
    destruct (index_returns (class_names g) (category - 1)) as [class_name Hname]; [lia|].
    destruct (index_returns (COLORS g) category) as [color Hcolor]; [lia|].
    by exists class_name, color.
  - intros Hout.
    unfold render_detection, detection_confidence, bind, lift, get; simpl.
    rewrite Hconf, Hgt, Hid, Hcat.
    destruct (Py.index (class_names g) (category - 1)) as [class_name|e] eqn:Hname;
      [|by apply index_raises in Hname as [-> _]].
    destruct (Py.index (COLORS g) category) as [color|e] eqn:Hcolor;
      [|by apply index_raises in Hcolor as [-> _]].
    exfalso.
    assert (- Py.len (class_names g) <= category - 1 < Py.len (class_names g)).
    { destruct (Z.lt_ge_cases (category - 1) 0) as [Hneg|Hpos].
      - apply index_negative in Hname as [? ?%lookup_lt_Some]; [|done].
        unfold Py.len in *. lia.
      - apply index_nonneg in Hname; [|done]. apply lookup_lt_Some in Hname.
        unfold Py.len. lia. }
    assert (- Py.len (COLORS g) <= category < Py.len (COLORS g)).
    { destruct (Z.lt_ge_cases category 0) as [Hneg|Hpos].
      - apply index_negative in Hcolor as [? ?%lookup_lt_Some]; [|done].
        unfold Py.len in *. lia.
      - apply index_nonneg in Hcolor; [|done]. apply lookup_lt_Some in Hcolor.
        unfold Py.len. lia. }
    lia.
Qed.

(** Category 4 on the registry of three names. *)
Lemma category_range_witness :
  render_detection prec32 emax32 (f32 1 (-1)) 2 (centred_row 4) (prepared (demo_session []))
  = (prepared (demo_session []), Py.Raise Py.IndexError).
Proof.
  apply (category_range prec32 emax32 (f32 1 (-1)) 2 (centred_row 4) (f32 7 (-3))
           (f32 4 0) 4 (prepared (demo_session [])));
    try reflexivity.
  right. vm_compute. reflexivity.
Defined.

(** X7.  The category equal to the number of names has a name, the last
    one of the registry, but no colour: a row above the threshold with
    this category raises [IndexError] and nothing is drawn. *)
Theorem last_category_has_no_color (prec emax : Z) (threshold : float) (ndigits : nat)
    (detection : list float) (confidence class_id : float) (last_name : string)
    (g : globals) :
  Py.index detection 2 = Py.Return confidence ->
  gt confidence threshold = true ->
  Py.index detection 1 = Py.Return class_id ->
  to_int class_id = Py.Return (Py.len (class_names g)) ->
  length (COLORS g) = length (class_names g) ->
  last (class_names g) = Some last_name ->
  Py.index (class_names g) (Py.len (class_names g) - 1) = Py.Return last_name
  /\ render_detection prec emax threshold ndigits detection g
     = (g, Py.Raise Py.IndexError).
Proof.
  intros Hconf Hgt Hid Hcat Hlen Hlast. split.
  - assert (length (class_names g) <> 0%nat) as Hne by (by destruct (class_names g)).
    apply index_nonneg; [unfold Py.len; lia|].
    rewrite last_lookup in Hlast. rewrite <- Hlast. f_equal. unfold Py.len. lia.
  - eapply category_range; try done. right. lia.
Qed.

(** "car" is line 2 of the registry of three names; category 3 is not
    rendered. *)
Lemma last_category_has_no_color_witness :
  Py.index (class_names (prepared (demo_session []))) (3 - 1) = Py.Return "car"%string
  /\ render_detection prec32 emax32 (f32 1 (-1)) 2 (centred_row 3)
       (prepared (demo_session []))
     = (prepared (demo_session []), Py.Raise Py.IndexError).
Proof.
  apply (last_category_has_no_color prec32 emax32 (f32 1 (-1)) 2 (centred_row 3)
           (f32 7 (-3)) (f32 3 0) "car" (prepared (demo_session []))); reflexivity.
Defined.

(** X8.  A negative category is accepted silently.  When a row above the
    threshold with category [c < 0] is rendered, with [n] names and [m]
    colours, its label carries the name at position [n + c - 1] and its
    calls the colour at position [m + c], both counted from 0. *)
Theorem negative_category_wraps (prec emax : Z) (threshold : float) (ndigits : nat)
    (detection : list float) (confidence class_id : float) (category : Z)
    (g : globals) (l : loc) (a : ndarray) :
  image_copy g = Some l ->
  heap g !! l = Some a ->
  Py.index detection 2 = Py.Return confidence ->
  gt confidence threshold = true ->
  Py.index detection 1 = Py.Return class_id ->
  to_int class_id = Py.Return category ->
  category < 0 ->
  outcome (render_detection prec emax threshold ndigits detection) g = Py.Return tt ->
  exists (class_name : string) (color : list float) (pt1 pt2 org : Z * Z),
    class_names g !! Z.to_nat (Py.len (class_names g) + category - 1) = Some class_name
    /\ COLORS g !! Z.to_nat (Py.len (COLORS g) + category) = Some color
    /\ run (render_detection prec emax threshold ndigits detection) g
       = drawn_on l a [Rectangle pt1 pt2 color 2;
                       PutText (label ndigits class_name confidence) org
                         FONT_HERSHEY_SIMPLEX 1 color 2] g.
Proof.
  intros Hcopy Hl Hconf Hgt Hid Hcat Hneg Hret.
  destruct (render_detection_name_and_color_aux _ _ _ _ _ _ _ _ _ Hcopy Hl Hconf Hgt Hret)
    as (class_id' & category' & class_name & color & pt1 & pt2 & org
        & Hid' & Hcat' & Hname & Hcolor & Hrun).
  rewrite Hid in Hid'. injection Hid' as <-.
  rewrite Hcat in Hcat'. injection Hcat' as <-.
  apply index_negative in Hname as [_ Hname]; [|lia].
  apply index_negative in Hcolor as [_ Hcolor]; [|lia].
  exists class_name, color, pt1, pt2, org.
  replace (Py.len (class_names g) + category - 1)
    with (category - 1 + Py.len (class_names g)) by lia.
  by rewrite (Z.add_comm (Py.len (COLORS g))).
Qed.

(** Category -1 on the COCO registry of 61 names: name 59, "donut". *)
Lemma negative_category_wraps_witness :
  exists (color : list float) (pt1 pt2 org : Z * Z),
    class_names (prepared (coco_session [])) !! 59%nat = Some "donut"%string
    /\ run (render_detection prec32 emax32 (f32 1 (-1)) 2 (notebook_row (-1)))
         (prepared (coco_session []))
       = drawn_on 2%positive {| base := demo_image; drawn := [] |}
           [Rectangle pt1 pt2 color 2;
            PutText (label 2 "donut" (f32 16478513 (-24))) org
              FONT_HERSHEY_SIMPLEX 1 color 2]
           (prepared (coco_session [])).
Proof.
  destruct (negative_category_wraps prec32 emax32 (f32 1 (-1)) 2 (notebook_row (-1))
              (f32 16478513 (-24)) (f32 (-1) 0) (-1) (prepared (coco_session []))
              2%positive {| base := demo_image; drawn := [] |})
    as (class_name & color & pt1 & pt2 & org & Hname & _ & Hrun); try reflexivity.
  exists color, pt1, pt2, org. split; [reflexivity|].
  vm_compute in Hname. injection Hname as <-. exact Hrun.
Defined.

(** ** Values that are not numbers *)

Lemma gt_nan_l (x : float) : gt S754_nan x = false.
Proof. by destruct x. Qed.

Lemma gt_nan_r (x : float) : gt x S754_nan = false.
Proof. by destruct x. Qed.

(** X9.  A score that is not a number passes no threshold and a threshold
    that is not a number lets no score pass: in both cases the row is
    skipped and the state stays as it was.  A category that is not a
    number, in a row above the threshold, stops the body with
    [ValueError] before anything is drawn, an infinite one with
    [OverflowError]. *)
Theorem not_a_number (prec emax : Z) (threshold : float) (ndigits : nat)
    (detection : list float) (confidence : float) (g : globals) :
  Py.index detection 2 = Py.Return confidence ->
  (confidence = S754_nan \/ threshold = S754_nan ->
   render_detection prec emax threshold ndigits detection g = (g, Py.Return tt))
  /\ (gt confidence threshold = true ->
      Py.index detection 1 = Py.Return S754_nan ->
      render_detection prec emax threshold ndigits detection g
      = (g, Py.Raise Py.ValueError))
  /\ (forall s, gt confidence threshold = true ->
      Py.index detection 1 = Py.Return (S754_infinity s) ->
      render_detection prec emax threshold ndigits detection g
      = (g, Py.Raise Py.OverflowError)).
Proof.
  intros Hconf. split; [|split].
  - intros [-> | ->]; eapply render_detection_below; try done;
      first [apply gt_nan_l | apply gt_nan_r].
  - intros Hgt Hid.
    unfold render_detection, detection_confidence, bind, lift, get; simpl.
    by rewrite Hconf, Hgt, Hid.
  - intros s Hgt Hid.
    unfold render_detection, detection_confidence, bind, lift, get; simpl.
    by rewrite Hconf, Hgt, Hid.
Qed.

Lemma not_a_number_witness :
  render_detection prec32 emax32 (f32 1 (-1)) 2 nan_score_row (prepared (demo_session []))
  = (prepared (demo_session []), Py.Return tt)
  /\ render_detection prec32 emax32 (f32 1 (-1)) 2 nan_category_row
       (prepared (demo_session []))
     = (prepared (demo_session []), Py.Raise Py.ValueError).
Proof.
  split.
  - apply (not_a_number prec32 emax32 (f32 1 (-1)) 2 nan_score_row S754_nan);
      [reflexivity|by left].
  - apply (not_a_number prec32 emax32 (f32 1 (-1)) 2 nan_category_row (f32 7 (-3)));
      reflexivity.
Defined.

(** ** The rendering cell on lists of rows *)

Lemma cell_render_run_output (prec emax : Z) (threshold : float) (ndigits : nat)
    (g : globals) (li : loc) (a : ndarray) (rows : list (list float)) :
  image g = Some li ->
  heap g !! li = Some a ->
  let result := loop_calls prec emax threshold ndigits (class_names g) (COLORS g)
                  (image_width g) (image_height g) rows in
  outcome (cell_render prec emax threshold ndigits) (set_output rows g) = snd result
  /\ rendered (run (cell_render prec emax threshold ndigits) (set_output rows g))
     = Some (append_calls (fst result) a).
Proof.
  intros Himg Hli.
  destruct (cell_render_run prec emax threshold ndigits (set_output rows g) li a Himg Hli)
    as (_ & Hout & Hrendered).
  done.
Qed.



(** X11.  Rows are rendered one after the other, in the order of the
    output: when the cell ends without an exception on [rows1], what it
    draws for [rows1 ++ rows2] is what it draws for [rows1] followed by
    what it draws for [rows2], and it ends as it does on [rows2]. *)
Theorem cell_render_app (prec emax : Z) (threshold : float) (ndigits : nat)
    (g : globals) (li : loc) (a : ndarray) (rows1 rows2 : list (list float)) :
  image g = Some li ->
  heap g !! li = Some a ->
  let render := cell_render prec emax threshold ndigits in
  outcome render (set_output rows1 g) = Py.Return tt ->
  exists calls1 calls2 : list cv2_call,
    rendered (run render (set_output rows1 g)) = Some (append_calls calls1 a)
    /\ rendered (run render (set_output rows2 g)) = Some (append_calls calls2 a)
    /\ rendered (run render (set_output (rows1 ++ rows2) g))
       = Some (append_calls (calls1 ++ calls2) a)
    /\ outcome render (set_output (rows1 ++ rows2) g)
       = outcome render (set_output rows2 g).
Proof.
  intros Himg Hli render Hret.
  destruct (cell_render_run_output prec emax threshold ndigits g li a rows1 Himg Hli)
    as [Hout1 Hr1].
  destruct (cell_render_run_output prec emax threshold ndigits g li a rows2 Himg Hli)
    as [Hout2 Hr2].
  destruct (cell_render_run_output prec emax threshold ndigits g li a (rows1 ++ rows2)
              Himg Hli) as [Hout Hr].
  fold render in Hout1, Hr1, Hout2, Hr2, Hout, Hr.
  rewrite loop_calls_app in Hout, Hr. rewrite Hout1 in Hret.
  destruct (loop_calls _ _ _ _ _ _ _ _ rows1) as [calls1 r1]. simpl in Hret. subst r1.
  destruct (loop_calls _ _ _ _ _ _ _ _ rows2) as [calls2 r2]. simpl in *.
  exists calls1, calls2. repeat split; congruence.
Qed.

Lemma cell_render_app_witness :
  exists calls1 calls2 : list cv2_call,
    rendered (run (cell_render prec32 emax32 (f32 1 (-1)) 2)
                (set_output [centred_row 1] (demo_session [])))
    = Some (append_calls calls1 {| base := demo_image; drawn := [] |})
    /\ rendered (run (cell_render prec32 emax32 (f32 1 (-1)) 2)
                   (set_output [centred_row 2] (demo_session [])))
       = Some (append_calls calls2 {| base := demo_image; drawn := [] |})
    /\ rendered (run (cell_render prec32 emax32 (f32 1 (-1)) 2)
                   (set_output ([centred_row 1] ++ [centred_row 2]) (demo_session [])))
       = Some (append_calls (calls1 ++ calls2) {| base := demo_image; drawn := [] |}).
Proof.
  destruct (cell_render_app prec32 emax32 (f32 1 (-1)) 2 (demo_session []) 1%positive
              {| base := demo_image; drawn := [] |} [centred_row 1] [centred_row 2])
    as (calls1 & calls2 & H1 & H2 & H12 & _); try reflexivity.
  by exists calls1, calls2.
Defined.

(** X12.  A row whose body raises stops the whole cell: the exception is
    that of the row, and the rows after it are never looked at, so the
    image is the same whatever follows the row. *)
Theorem cell_render_stops_at_exception (prec emax : Z) (threshold : float)
    (ndigits : nat) (g : globals) (li : loc) (a : ndarray)
    (before after : list (list float)) (bad : list float) (e : Py.exn) :
  image g = Some li ->
  heap g !! li = Some a ->
  let render := cell_render prec emax threshold ndigits in
  outcome render (set_output before g) = Py.Return tt ->
  outcome render (set_output [bad] g) = Py.Raise e ->
  outcome render (set_output (before ++ bad :: after) g) = Py.Raise e
  /\ rendered (run render (set_output (before ++ bad :: after) g))
     = rendered (run render (set_output (before ++ [bad]) g)).
Proof.
  intros Himg Hli render Hbefore Hbad.
  destruct (cell_render_run_output prec emax threshold ndigits g li a before Himg Hli)
    as [Hout1 _].
  destruct (cell_render_run_output prec emax threshold ndigits g li a [bad] Himg Hli)
    as [Hout2 _].
  destruct (cell_render_run_output prec emax threshold ndigits g li a
              (before ++ bad :: after) Himg Hli) as [Hout Hr].
  destruct (cell_render_run_output prec emax threshold ndigits g li a
              (before ++ [bad]) Himg Hli) as [_ Hr'].
  fold render in Hout1, Hout2, Hout, Hr, Hr'.
  rewrite Hout1 in Hbefore. rewrite Hout2 in Hbad.
  rewrite Hout, Hr, Hr', !loop_calls_app.
  destruct (loop_calls _ _ _ _ _ _ _ _ before) as [calls1 r1]. simpl in Hbefore. subst r1.
  change (bad :: after) with ([bad] ++ after). rewrite loop_calls_app.
  destruct (loop_calls _ _ _ _ _ _ _ _ [bad]) as [calls2 r2]. simpl in Hbad. subst r2.
  done.
Qed.

(** The stray row stops the cell before the row of category 1. *)
Lemma cell_render_stops_at_exception_witness :
  outcome (cell_render prec32 emax32 (f32 1 (-1)) 2)
    (set_output ([centred_row 2] ++ centred_row 1000 :: [centred_row 1]) (demo_session []))
  = Py.Raise Py.IndexError.
Proof.
  apply (cell_render_stops_at_exception prec32 emax32 (f32 1 (-1)) 2 (demo_session [])
           1%positive {| base := demo_image; drawn := [] |}
           [centred_row 2] [centred_row 1] (centred_row 1000) Py.IndexError);
    reflexivity.
Defined.



(** ** The order of the cells *)



